(** * ftth-ai-mvp: the rule-based log-anomaly detector ([src/ai_detector.py])

    A shallow embedding of the detector's pure core ([extract_lines],
    [compute_metrics], [simple_score]) and of its scheduler loop ([main],
    [send_syslog]) with the outside world (the Loki query, the UDP socket,
    the clock) supplied as explicit outcomes.

    Python [float] is IEEE 754 binary64; it is embedded as Rocq's primitive
    [float], which is the same format with the same round-to-nearest-even
    arithmetic, so the sums and comparisons below are the ones the
    interpreter performs. Python [int] is [Z]; [str] is [string], with the
    characters read as the code points 0..255. *)

From Stdlib Require Import ZArith List String Ascii Bool Lia.
From Stdlib Require Import Floats.
Import ListNotations.

Set Warnings "-inexact-float,-register-all".

Local Open Scope string_scope.
Local Open Scope Z_scope.

(* ================================================================= *)
(** ** Configuration constants *)

Module Config.

(** [WINDOW_MINUTES = 5], [POLL_SECONDS = 60], [SCORE_THRESHOLD = 0.10]. *)
Definition WINDOW_MINUTES : Z := 5.
Definition POLL_SECONDS : Z := 60.
Definition SCORE_THRESHOLD : float := 0.10%float.

End Config.

(* ================================================================= *)
(** ** The metrics snapshot *)

(** The dictionary [compute_metrics] returns and [simple_score] reads: the
    keys are fixed, so it is a record. [thr_avg] is [None] when no
    throughput value was seen. *)
Record metrics : Type := Metrics {
  total    : Z;
  log_rate : float;
  security : Z;
  sec_rate : float;
  errors   : Z;
  err_rate : float;
  thr_avg  : option float
}.

(* ================================================================= *)
(** ** The scoring engine: [simple_score] *)

Module Scoring.

Local Open Scope float_scope.

(** [x >= 20] on a float [x] and the integer literal [20]: Python compares
    the two numbers exactly, and 20 is a binary64 value, so this is the
    IEEE comparison [20 <= x] (false on NaN). *)
Definition ge_int (x : float) (k : float) : bool := k <=? x.

(** [metrics["thr_avg"] is not None and metrics["thr_avg"] < 0.25] *)
Definition thr_below (t : option float) (cut : float) : bool :=
  match t with
  | None => false
  | Some v => v <? cut
  end.

(** One [if cond: score += w; reasons.append(tag)] statement, on the pair
    of local variables [(score, reasons)]. *)
Definition bump (cond : bool) (w : float) (tag : string)
           (st : float * list string) : float * list string :=
  if cond then (fst st + w, (snd st ++ [tag])%list) else st.

Definition simple_score (m : metrics) : float * list string :=
  let st := (0.0, @nil string) in
  let st := bump (ge_int (log_rate m) 20) 0.35 "high_log_rate" st in
  let st := bump (ge_int (sec_rate m) 5) 0.35 "high_security_rate" st in
  let st := bump (ge_int (err_rate m) 2) 0.20 "high_error_rate" st in
  let st := bump (thr_below (thr_avg m) 0.25) 0.30 "low_throughput" st in
  let score := if 1.0 <? fst st then 1.0 else fst st in
  (score, snd st).

(** The two components of the result. *)
Definition score (m : metrics) : float := fst (simple_score m).
Definition reasons (m : metrics) : list string := snd (simple_score m).

(** *** The four rules as the specification words them *)

Record rule : Type := Rule {
  fires  : metrics -> bool;
  weight : float;
  tag    : string
}.

Definition rule_log_rate : rule :=
  Rule (fun m => 20 <=? log_rate m) 0.35 "high_log_rate".
Definition rule_security_rate : rule :=
  Rule (fun m => 5 <=? sec_rate m) 0.35 "high_security_rate".
Definition rule_error_rate : rule :=
  Rule (fun m => 2 <=? err_rate m) 0.20 "high_error_rate".
Definition rule_low_throughput : rule :=
  Rule (fun m => match thr_avg m with
                 | Some t => t <? 0.25
                 | None => false
                 end) 0.30 "low_throughput".

Definition rules : list rule :=
  [rule_log_rate; rule_security_rate; rule_error_rate; rule_low_throughput].

Definition fired (m : metrics) : list rule :=
  filter (fun r => fires r m) rules.

Definition clamp1 (s : float) : float := if 1 <? s then 1 else s.

(** The sum of the weights of the rules that fired, added in rule order
    starting from [0.0], clamped to at most [1.0]; and their tags. *)
Definition rule_table_score (m : metrics) : float * list string :=
  (clamp1 (fold_left (fun s r => s + weight r) (fired m) 0),
   map tag (fired m)).

End Scoring.

(* ================================================================= *)
(** ** Python strings *)

(** A [str] is a [string] whose characters are the code points 0..255
    (Latin-1). Within that range the functions below are the interpreter's:
    [lower] maps A-Z and the accented capitals, [in] is substring search,
    and the only decimal digits are the ASCII ones. *)
Module PyStr.

Definition code (c : ascii) : N := N_of_ascii c.

Definition in_range (lo hi : N) (c : ascii) : bool :=
  (lo <=? code c)%N && (code c <=? hi)%N.

Definition is_digit (c : ascii) : bool := in_range 48 57 c.

Definition digit_val (c : ascii) : Z := Z.of_N (code c) - 48.

(** [str.lower] on one character: A-Z, and in Latin-1 the capitals
    U+00C0..U+00D6 and U+00D8..U+00DE, move up by 32. *)
Definition lower_char (c : ascii) : ascii :=
  if in_range 65 90 c || in_range 192 214 c || in_range 216 222 c
  then ascii_of_N (code c + 32)
  else c.

Fixpoint lower (s : string) : string :=
  match s with
  | EmptyString => EmptyString
  | String c t => String (lower_char c) (lower t)
  end.

(** [sub in s] *)
Fixpoint contains (sub s : string) : bool :=
  prefix sub s ||
  match s with
  | EmptyString => false
  | String _ t => contains sub t
  end.

(** The characters [str.strip] and [float] treat as white space. *)
Definition is_space (c : ascii) : bool :=
  in_range 9 13 c || in_range 28 32 c ||
  (code c =? 133)%N || (code c =? 160)%N.

Fixpoint lstrip (s : string) : string :=
  match s with
  | EmptyString => EmptyString
  | String c t => if is_space c then lstrip t else s
  end.

(** [rstrip]: drop a character when everything after it is dropped too. *)
Fixpoint rstrip (s : string) : string :=
  match s with
  | EmptyString => EmptyString
  | String c t =>
      match rstrip t with
      | EmptyString => if is_space c then EmptyString else String c EmptyString
      | t' => String c t'
      end
  end.

Definition strip (s : string) : string := rstrip (lstrip s).

(** The first [n] characters of [s] ([s[:n]]). *)
Fixpoint take (n : nat) (s : string) : string :=
  match n, s with
  | S k, String c t => String c (take k t)
  | _, _ => EmptyString
  end.

Definition dquote : string := String (ascii_of_nat 34) EmptyString.

End PyStr.

(* ================================================================= *)
(** ** The throughput pattern *)

(** The fragment of Python's [re] that [RE_THROUGHPUT] uses: literal
    characters, a character range, the greedy quantifiers [*], [?], [+] on
    single characters, and one capturing group that runs to the end of the
    pattern. Matching is the backtracking one: each quantifier first takes
    as much as it can and gives back one character at a time. *)
Module Regex.

Inductive atom : Type :=
| Lit (c : ascii)
| Range (lo hi : ascii).

Inductive quant : Type := One | Opt | Star | Plus.

Inductive item : Type :=
| Ch (a : atom) (q : quant)
| OpenGroup.

Definition accepts (a : atom) (c : ascii) : bool :=
  match a with
  | Lit d => Ascii.eqb c d
  | Range lo hi => PyStr.in_range (PyStr.code lo) (PyStr.code hi) c
  end.

(** [match_here p s g]: match the items [p] at the start of [s]. [g] is the
    input that was left when the group opened. The result is that input
    and the input left after the whole match. *)
Fixpoint match_here (p : list item) (s : string) (g : option string)
  : option (option string * string) :=
  match p with
  | [] => Some (g, s)
  | OpenGroup :: r => match_here r s (Some s)
  | Ch a One :: r =>
      match s with
      | String c t => if accepts a c then match_here r t g else None
      | EmptyString => None
      end
  | Ch a Opt :: r =>
      match s with
      | String c t =>
          if accepts a c then
            match match_here r t g with
            | Some res => Some res
            | None => match_here r s g
            end
          else match_here r s g
      | EmptyString => match_here r s g
      end
  | Ch a Star :: r =>
      (fix star (s : string) : option (option string * string) :=
         match s with
         | String c t =>
             if accepts a c then
               match star t with
               | Some res => Some res
               | None => match_here r s g
               end
             else match_here r s g
         | EmptyString => match_here r s g
         end) s
  | Ch a Plus :: r =>
      match s with
      | String c t =>
          if accepts a c then
            (fix star (s : string) : option (option string * string) :=
               match s with
               | String c t =>
                   if accepts a c then
                     match star t with
                     | Some res => Some res
                     | None => match_here r s g
                     end
                   else match_here r s g
               | EmptyString => match_here r s g
               end) t
          else None
      | EmptyString => None
      end
  end.

(** The text of group 1 of a match: what lies between the input at the
    opening of the group and the input left at the end. *)
Definition group1 (res : option string * string) : option string :=
  match fst res with
  | Some at_open =>
      Some (PyStr.take (String.length at_open - String.length (snd res)) at_open)
  | None => None
  end.

(** [pattern.search(s)]: the match at the leftmost position that has one;
    here, its group 1. *)
Fixpoint search (p : list item) (s : string) : option string :=
  match match_here p s None with
  | Some res => group1 res
  | None =>
      match s with
      | EmptyString => None
      | String _ t => search p t
      end
  end.

Definition literal (s : string) : list item :=
  map (fun c => Ch (Lit c) One) (list_ascii_of_string s).

Definition digit : atom := Range "0" "9".

(** [RE_THROUGHPUT = re.compile(r"Throughput=([0-9]*\.?[0-9]+)")] *)
Definition RE_THROUGHPUT : list item :=
  literal "Throughput=" ++
  [OpenGroup; Ch digit Star; Ch (Lit ".") Opt; Ch digit Plus].

End Regex.

(* ================================================================= *)
(** ** Python numbers *)

Module PyNum.

Import PyStr.

(** An integer as an exact, unrounded, binary floating-point number. *)
Definition Z2SF (n : Z) : spec_float :=
  match n with
  | Z0 => S754_zero false
  | Zpos p => S754_finite false p 0
  | Zneg p => S754_finite true p 0
  end.

(** [float(n)] for an [int]: the nearest binary64 value, ties to even. *)
Definition float_of_int (n : Z) : float :=
  SF2Prim (binary_normalize prec emax n 0 false).

(** [a / b] on two [int]s: the exact quotient, rounded once. *)
Definition int_truediv (a b : Z) : float :=
  SF2Prim (SFdiv prec emax (Z2SF a) (Z2SF b)).

(** The value of the decimal [m * 10^e], rounded once. *)
Definition dec_to_float (m e : Z) : float :=
  if (0 <=? e)%Z
  then SF2Prim (binary_normalize prec emax (m * 10 ^ e) 0 false)
  else SF2Prim (SFdiv prec emax (Z2SF m) (Z2SF (10 ^ (- e)))).

(** [int(x)] for a [float]: truncation towards zero; [None] on NaN and the
    infinities. *)
Definition trunc (x : float) : option Z :=
  match Prim2SF x with
  | S754_zero _ => Some 0
  | S754_finite s m e =>
      let a := if (0 <=? e)%Z then Zpos m * 2 ^ e else Zpos m / 2 ^ (- e) in
      Some (if s then - a else a)
  | S754_infinity _ | S754_nan => None
  end.

(** The rest of a [digitpart ::= digit (["_"] digit)*] once a digit has
    been read: the accumulated value, the number of digits, the input
    left. *)
Fixpoint digit_run (s : string) (acc n : Z) : Z * Z * string :=
  match s with
  | String c t =>
      if is_digit c then digit_run t (10 * acc + digit_val c) (n + 1)
      else if Ascii.eqb c "_" then
        match t with
        | String d t' =>
            if is_digit d then digit_run t' (10 * acc + digit_val d) (n + 1)
            else (acc, n, s)
        | EmptyString => (acc, n, s)
        end
      else (acc, n, s)
  | EmptyString => (acc, n, s)
  end.

Definition digitpart (s : string) (acc n : Z) : option (Z * Z * string) :=
  match s with
  | String c t =>
      if is_digit c then Some (digit_run t (10 * acc + digit_val c) (n + 1))
      else None
  | EmptyString => None
  end.

(** [sign ::= "+" | "-"], optional: whether it was ["-"], and the rest. *)
Definition opt_sign (s : string) : bool * string :=
  match s with
  | String c t =>
      if Ascii.eqb c "-" then (true, t)
      else if Ascii.eqb c "+" then (false, t)
      else (false, s)
  | EmptyString => (false, s)
  end.

(** [number ::= [digitpart] "." digitpart | digitpart ["."]]: all the
    digits as one integer, the number of digits after the point, the
    rest. *)
Definition number (s : string) : option (Z * Z * string) :=
  match digitpart s 0 0 with
  | Some (m, _, r) =>
      match r with
      | String c r' =>
          if Ascii.eqb c "." then
            match digitpart r' m 0 with
            | Some res => Some res
            | None => Some (m, 0, r')
            end
          else Some (m, 0, r)
      | EmptyString => Some (m, 0, r)
      end
  | None =>
      match s with
      | String c r' => if Ascii.eqb c "." then digitpart r' 0 0 else None
      | EmptyString => None
      end
  end.

(** [[exponent]], with [exponent ::= ("e" | "E") [sign] digitpart]. *)
Definition opt_exponent (s : string) : option (Z * string) :=
  match s with
  | String c t =>
      if Ascii.eqb c "e" || Ascii.eqb c "E" then
        let (neg, t1) := opt_sign t in
        match digitpart t1 0 0 with
        | Some (x, _, r) => Some (if neg then - x else x, r)
        | None => None
        end
      else Some (0, s)
  | EmptyString => Some (0, s)
  end.

Definition special (s : string) : option float :=
  let l := lower s in
  if String.eqb l "inf" || String.eqb l "infinity" then Some infinity
  else if String.eqb l "nan" then Some nan
  else None.

(** [float(s)] for a [str]: white space stripped, an optional sign, then
    [inf], [infinity], [nan] in any case or a decimal number with an
    optional exponent, and nothing after it. [None] is [ValueError]. *)
Definition py_float (s : string) : option float :=
  let (neg, body) := opt_sign (strip s) in
  let signed (x : float) := if neg then PrimFloat.opp x else x in
  match special body with
  | Some x => Some (signed x)
  | None =>
      match number body with
      | Some (m, k, r) =>
          match opt_exponent r with
          | Some (x, EmptyString) => Some (signed (dec_to_float m (x - k)))
          | _ => None
          end
      | None => None
      end
  end.

(** The default limit on the digits of a decimal string [int] converts
    ([sys.get_int_max_str_digits()]). *)
Definition INT_MAX_STR_DIGITS : Z := 4300.

(** [int(s)] for a [str], base 10: white space stripped, an optional sign,
    one [digitpart], nothing after it, and no more digits than the limit.
    [None] is [ValueError]. *)
Definition int_of_str (s : string) : option Z :=
  let (neg, body) := opt_sign (strip s) in
  match digitpart body 0 0 with
  | Some (m, n, EmptyString) =>
      if (n <=? INT_MAX_STR_DIGITS)%Z then Some (if neg then - m else m)
      else None
  | _ => None
  end.

(** [sum(xs)] over floats: [0 + x1 + x2 + ...] from the left. (From
    CPython 3.12 on [sum] also carries a compensation term for the
    rounding errors; only the exact value of the average depends on
    that.) *)
Definition fsum (xs : list float) : float :=
  fold_left PrimFloat.add xs 0%float.

End PyNum.

(* ================================================================= *)
(** ** Exceptions, and computations that may raise *)

(** The classes are all subclasses of [Exception], which is what the
    scheduler's [except Exception] catches. [KeyboardInterrupt] and
    [SystemExit] are not: they are the external shutdown and are not
    modelled. The message is [str(e)]; for the exceptions the interpreter
    raises it follows CPython's wording. *)
Inductive exn_class : Type :=
| AttributeError | TypeError | ValueError | OverflowError
| OSError | RequestException.

Record exn : Type := Exn { exn_cls : exn_class; exn_msg : string }.

Inductive result (A : Type) : Type :=
| Ok (a : A)
| Raise (e : exn).
Arguments Ok {A} a.
Arguments Raise {A} e.

Definition bind {A B : Type} (r : result A) (k : A -> result B) : result B :=
  match r with
  | Ok a => k a
  | Raise e => Raise e
  end.

Declare Scope result_scope.
Delimit Scope result_scope with result.
Notation "x <- r ;; k" := (bind r (fun x => k))
  (at level 61, r at next level, right associativity) : result_scope.
Notation "' p <- r ;; k" := (bind r (fun x => let p := x in k))
  (at level 61, p pattern, r at next level, right associativity) : result_scope.

(** A [for] loop whose body updates the local state [st] and may raise. *)
Fixpoint for_each {A S : Type} (body : S -> A -> result S) (xs : list A) (st : S)
  : result S :=
  match xs with
  | [] => Ok st
  | x :: rest => bind (body st x) (for_each body rest)
  end.

(* ================================================================= *)
(** ** Python values, as [response.json()] builds them *)

Inductive pyval : Type :=
| PNone
| PBool (b : bool)
| PInt (n : Z)
| PFloat (x : float)
| PStr (s : string)
| PList (l : list pyval)
| PDict (d : list (string * pyval)).

Module Py.

Local Open Scope result_scope.

Definition type_name (v : pyval) : string :=
  match v with
  | PNone => "NoneType"
  | PBool _ => "bool"
  | PInt _ => "int"
  | PFloat _ => "float"
  | PStr _ => "str"
  | PList _ => "list"
  | PDict _ => "dict"
  end.

Definition no_attribute (v : pyval) (name : string) : exn :=
  Exn AttributeError
      ("'" ++ type_name v ++ "' object has no attribute '" ++ name ++ "'").

(** A dictionary is the list of its items; its keys are distinct. *)
Fixpoint lookup (k : string) (d : list (string * pyval)) : option pyval :=
  match d with
  | [] => None
  | (k', v) :: rest => if String.eqb k k' then Some v else lookup k rest
  end.

(** [v.get(k, default)]: only a [dict] has the method. *)
Definition get (v : pyval) (k : string) (default : pyval) : result pyval :=
  match v with
  | PDict d => Ok (match lookup k d with Some x => x | None => default end)
  | _ => Raise (no_attribute v "get")
  end.

(** What [for x in v] runs over: the elements of a list, the keys of a
    dictionary, the characters of a string. *)
Definition iter (v : pyval) : result (list pyval) :=
  match v with
  | PList l => Ok l
  | PDict d => Ok (map (fun kv => PStr (fst kv)) d)
  | PStr s => Ok (map (fun c => PStr (String c EmptyString)) (list_ascii_of_string s))
  | _ => Raise (Exn TypeError ("'" ++ type_name v ++ "' object is not iterable"))
  end.

(** [a, b = v] *)
Definition unpack2 (v : pyval) : result (pyval * pyval) :=
  xs <- iter v ;;
  match xs with
  | [a; b] => Ok (a, b)
  | [] | [_] => Raise (Exn ValueError "not enough values to unpack (expected 2)")
  | _ => Raise (Exn ValueError "too many values to unpack (expected 2)")
  end.

(** [int(v)] *)
Definition int (v : pyval) : result Z :=
  match v with
  | PInt n => Ok n
  | PBool b => Ok (if b then 1 else 0)
  | PFloat x =>
      match PyNum.trunc x with
      | Some n => Ok n
      | None => if PrimFloat.is_nan x
                then Raise (Exn ValueError "cannot convert float NaN to integer")
                else Raise (Exn OverflowError "cannot convert float infinity to integer")
      end
  | PStr s =>
      match PyNum.int_of_str s with
      | Some n => Ok n
      | None => Raise (Exn ValueError
                         ("invalid literal for int() with base 10: '" ++ s ++ "'"))
      end
  | _ => Raise (Exn TypeError
                  ("int() argument must be a string, a bytes-like object or a real number, not '"
                     ++ type_name v ++ "'"))
  end.

(** [v.lower()]: only a [str] has the method. *)
Definition lower (v : pyval) : result string :=
  match v with
  | PStr s => Ok (PyStr.lower s)
  | _ => Raise (no_attribute v "lower")
  end.

End Py.

(* ================================================================= *)
(** ** The line extractor: [extract_lines] *)

Module Extract.

Local Open Scope result_scope.

(** The body of the inner loop: [out.append((int(ts_ns), line))] for one
    entry [ts_ns, line] of a stream's values. *)
Definition add_entry (out : list (Z * pyval)) (entry : pyval)
  : result (list (Z * pyval)) :=
  ' (ts_ns, line) <- Py.unpack2 entry ;;
  ts <- Py.int ts_ns ;;
  Ok (out ++ [(ts, line)])%list.

(** The body of the outer loop, for one stream. *)
Definition add_stream (out : list (Z * pyval)) (stream : pyval)
  : result (list (Z * pyval)) :=
  values <- Py.get stream "values" (PList []) ;;
  entries <- Py.iter values ;;
  for_each add_entry entries out.

Definition extract_lines (loki_json : pyval) : result (list (Z * pyval)) :=
  data <- Py.get loki_json "data" (PDict []) ;;
  result <- Py.get data "result" (PList []) ;;
  streams <- Py.iter result ;;
  for_each add_stream streams [].

End Extract.

(* ================================================================= *)
(** ** The metrics computer: [compute_metrics] *)

Module Metrics.

Local Open Scope result_scope.

(** The loop variables [security], [errors], [thr_vals]. *)
Record counters : Type := Counters {
  c_security : Z;
  c_errors   : Z;
  c_thr_vals : list float
}.

(** ["security:" in l or "auth" in l] *)
Definition security_marker (l : string) : bool :=
  PyStr.contains "security:" l || PyStr.contains "auth" l.

(** ["error" in l or "failed" in l or "deny" in l or "blocked" in l] *)
Definition error_marker (l : string) : bool :=
  PyStr.contains "error" l || PyStr.contains "failed" l ||
  PyStr.contains "deny" l || PyStr.contains "blocked" l.

(** [m = RE_THROUGHPUT.search(line)] and, on a match,
    [try: thr_vals.append(float(m.group(1))) except: pass]. *)
Definition scan_throughput (line : string) (thr_vals : list float) : list float :=
  match Regex.search Regex.RE_THROUGHPUT line with
  | Some g =>
      match PyNum.py_float g with
      | Some v => (thr_vals ++ [v])%list
      | None => thr_vals
      end
  | None => thr_vals
  end.

(** The loop body, for one pair [_, line]. The pattern is searched in
    [line] itself; [l] serves the two substring heuristics. *)
Definition scan_line (c : counters) (entry : Z * pyval) : result counters :=
  let line := snd entry in
  l <- Py.lower line ;;
  let security := if security_marker l then c_security c + 1 else c_security c in
  let errors := if error_marker l then c_errors c + 1 else c_errors c in
  match line with
  | PStr text => Ok (Counters security errors (scan_throughput text (c_thr_vals c)))
  | _ => Raise (Exn TypeError "expected string or bytes-like object")
  end.

Definition average (thr_vals : list float) : option float :=
  match thr_vals with
  | [] => None
  | _ => Some (PyNum.fsum thr_vals
               / PyNum.float_of_int (Z.of_nat (List.length thr_vals)))%float
  end.

Definition compute_metrics (lines : list (Z * pyval)) : result metrics :=
  let total := Z.of_nat (List.length lines) in
  c <- for_each scan_line lines (Counters 0 0 []) ;;
  let minutes := Z.max Config.WINDOW_MINUTES 1 in
  Ok {| total := total;
        log_rate := PyNum.int_truediv total minutes;
        security := c_security c;
        sec_rate := PyNum.int_truediv (c_security c) minutes;
        errors := c_errors c;
        err_rate := PyNum.int_truediv (c_errors c) minutes;
        thr_avg := average (c_thr_vals c) |}.

(** Log lines as the data model has them: a timestamp and a text. *)
Definition log_lines (ls : list (Z * string)) : list (Z * pyval) :=
  map (fun tl => (fst tl, PStr (snd tl))) ls.

End Metrics.

(* ================================================================= *)
(** ** Output: formatted text and observable events *)

(** An f-string is kept as its fragments: the literal pieces and the
    interpolated values with their format, so that the numbers in a message
    stay numbers. *)
Inductive frag : Type :=
| Txt (s : string)                (* literal text, or a [str] value *)
| Num (n : Z)                     (* [{n}] for an [int] *)
| Fix2 (x : float)                (* [{x:.2f}] *)
| Repr (x : option float)         (* [{x}] for a float or [None] *)
| ReprList (l : list string).     (* [{l}] for a list of strings *)

Definition text : Type := list frag.

Inductive event : Type :=
| Print (t : text)                                (* a line on standard output *)
| SocketOpen                                      (* [socket.socket(...)] *)
| SendTo (payload : text) (ip : string) (port : Z) (* a datagram left the host *)
| SocketClose                                     (* [sock.close()] *)
| Sleep (seconds : Z).                            (* [time.sleep(...)] *)

(** A program: the events it produced, and its value or the exception that
    ended it. *)
Definition prog (A : Type) : Type := (list event * result A)%type.

Module Prog.

Definition ret {A : Type} (a : A) : prog A := ([], Ok a).
Definition raise {A : Type} (e : exn) : prog A := ([], Raise e).
Definition emit (ev : event) : prog unit := ([ev], Ok tt).
Definition lift {A : Type} (r : result A) : prog A := ([], r).

Definition bind {A B : Type} (p : prog A) (k : A -> prog B) : prog B :=
  match snd p with
  | Ok a => (fst p ++ fst (k a), snd (k a))%list
  | Raise e => (fst p, Raise e)
  end.

(** [try: p except Exception as e: h e] *)
Definition try_except {A : Type} (p : prog A) (h : exn -> prog A) : prog A :=
  match snd p with
  | Ok a => p
  | Raise e => (fst p ++ fst (h e), snd (h e))%list
  end.

(** [try: p finally: f]: [f] runs either way; an exception of [p] is
    raised again after it, unless [f] raised one itself. *)
Definition try_finally {A : Type} (p : prog A) (f : prog unit) : prog A :=
  match snd f with
  | Ok _ => (fst p ++ fst f, snd p)%list
  | Raise e => (fst p ++ fst f, Raise e)%list
  end.

End Prog.

Declare Scope prog_scope.
Delimit Scope prog_scope with prog.
Notation "x <- p ;; k" := (Prog.bind p (fun x => k))
  (at level 61, p at next level, right associativity) : prog_scope.
Notation "p ;; k" := (Prog.bind p (fun _ => k))
  (at level 61, right associativity) : prog_scope.

(* ================================================================= *)
(** ** The alert emitter: [send_syslog] *)

Module Emitter.

Local Open Scope prog_scope.

Definition SYSLOG_IP : string := "127.0.0.1".
Definition SYSLOG_PORT : Z := 5140.

(** What the socket does during one call: the datagram is sent, or
    creating the socket raises, or [sendto] raises. *)
Inductive send_outcome : Type :=
| Sent
| SocketFails (e : exn)
| SendFails (e : exn).

Definition open_socket (o : send_outcome) : prog unit :=
  match o with
  | SocketFails e => Prog.raise e
  | _ => Prog.emit SocketOpen
  end.

Definition sendto (o : send_outcome) (line : text) : prog unit :=
  match o with
  | SendFails e => Prog.raise e
  | _ => Prog.emit (SendTo line SYSLOG_IP SYSLOG_PORT)
  end.

(** The line [send_syslog] builds for [message] at clock reading [ts]. *)
Definition syslog_line (ts : string) (message : text) : text :=
  ([Txt ts; Txt " "; Txt "ai-engine"; Txt " "; Txt "ai-detector"; Txt ": "]
     ++ message)%list.

(** [ts] is [datetime.now().strftime("%b %d %H:%M:%S")]. *)
Definition send_syslog (ts : string) (o : send_outcome) (message : text)
  : prog unit :=
  let host := "ai-engine" in
  let tag := "ai-detector" in
  let line := ([Txt ts; Txt " "; Txt host; Txt " "; Txt tag; Txt ": "] ++ message)%list in
  open_socket o ;;
  Prog.try_finally (sendto o line) (Prog.emit SocketClose).

End Emitter.

(* ================================================================= *)
(** ** The scheduler loop: [main] *)

Module Scheduler.

Import Emitter.
Local Open Scope prog_scope.

(** What the outside world does during one cycle. *)
Record cycle_env : Type := CycleEnv {
  query      : result pyval;   (* [loki_query_range(QUERY, start, end)] *)
  status_ts  : string;         (* [datetime.utcnow().isoformat()] *)
  alert_ts   : string;         (* the clock, for the alert of the [try] block *)
  alert_send : send_outcome;   (* the socket, for that alert *)
  error_ts   : string;         (* the clock, for the alert of the handler *)
  error_send : send_outcome    (* the socket, for that alert *)
}.

Definition status_line (ts : string) (m : metrics) (score : float)
           (reasons : list string) : text :=
  [Txt "["; Txt ts; Txt "Z] ";
   Txt "total="; Num (total m);
   Txt " log_rate="; Fix2 (log_rate m); Txt "/min ";
   Txt "sec_rate="; Fix2 (sec_rate m);
   Txt "/min err_rate="; Fix2 (err_rate m); Txt "/min ";
   Txt "thr_avg="; Repr (thr_avg m);
   Txt " score="; Fix2 score; Txt " reasons="; ReprList reasons].

Definition alert_message (m : metrics) (score : float) (reasons : list string)
  : text :=
  [Txt "AI_ALERT severity=high score="; Fix2 score;
   Txt " window="; Num Config.WINDOW_MINUTES; Txt "m ";
   Txt "total="; Num (total m); Txt " sec="; Num (security m);
   Txt " errors="; Num (errors m); Txt " ";
   Txt "thr_avg="; Repr (thr_avg m);
   Txt " reason="; Txt PyStr.dquote; Txt (String.concat "," reasons);
   Txt PyStr.dquote].

Definition error_message (e : exn) : text :=
  [Txt ("AI_ALERT severity=medium score=0.50 reason=" ++ PyStr.dquote
        ++ "ai_engine_error " ++ exn_msg e ++ PyStr.dquote)].

(** The metrics of a cycle: fetch, extract, compute. *)
Definition cycle_metrics (env : cycle_env) : result metrics :=
  (data <- query env ;;
   lines <- Extract.extract_lines data ;;
   Metrics.compute_metrics lines)%result.

(** The body of the [try] block. *)
Definition try_block (threshold : float) (env : cycle_env) : prog unit :=
  data <- Prog.lift (query env) ;;
  lines <- Prog.lift (Extract.extract_lines data) ;;
  m <- Prog.lift (Metrics.compute_metrics lines) ;;
  let (score, reasons) := Scoring.simple_score m in
  Prog.emit (Print (status_line (status_ts env) m score reasons)) ;;
  if (threshold <=? score)%float then
    let msg := alert_message m score reasons in
    send_syslog (alert_ts env) (alert_send env) msg ;;
    Prog.emit (Print (Txt ">>> SENT: " :: msg))
  else Prog.ret tt.

(** The rest of the [try] block once the metrics [m] are there. *)
Definition after_metrics (threshold : float) (env : cycle_env) (m : metrics)
  : prog unit :=
  Prog.emit (Print (status_line (status_ts env) m
                                (Scoring.score m) (Scoring.reasons m))) ;;
  if (threshold <=? Scoring.score m)%float then
    send_syslog (alert_ts env) (alert_send env)
                (alert_message m (Scoring.score m) (Scoring.reasons m)) ;;
    Prog.emit (Print (Txt ">>> SENT: "
                        :: alert_message m (Scoring.score m) (Scoring.reasons m)))
  else Prog.ret tt.

(** The [except Exception as e] handler. *)
Definition handler (env : cycle_env) (e : exn) : prog unit :=
  Prog.emit (Print [Txt "ERROR: "; Txt (exn_msg e)]) ;;
  send_syslog (error_ts env) (error_send env) (error_message e).

(** One turn of the [while True] loop. *)
Definition cycle_with (threshold : float) (env : cycle_env) : prog unit :=
  Prog.try_except (try_block threshold env) (handler env) ;;
  Prog.emit (Sleep Config.POLL_SECONDS).

Definition cycle : cycle_env -> prog unit := cycle_with Config.SCORE_THRESHOLD.

(** The loop, run against the outcomes of finitely many cycles: it is
    either still running after them, or an exception left it. *)
Inductive loop_state : Type :=
| Running
| Terminated (e : exn).

Fixpoint loop_with (threshold : float) (envs : list cycle_env)
  : list event * loop_state :=
  match envs with
  | [] => ([], Running)
  | env :: rest =>
      match cycle_with threshold env with
      | (evs, Ok _) =>
          let (evs', st) := loop_with threshold rest in ((evs ++ evs')%list, st)
      | (evs, Raise e) => (evs, Terminated e)
      end
  end.

Definition banner : list event :=
  [Print [Txt "AI detector running. Ctrl+C to stop."];
   Print [Txt "Reading Loki logs and emitting AI_ALERT via syslog-ng..."];
   Print [Txt "CONFIG: WINDOW_MINUTES="; Num Config.WINDOW_MINUTES;
          Txt ", POLL_SECONDS="; Num Config.POLL_SECONDS;
          Txt ", THRESHOLD="; Repr (Some Config.SCORE_THRESHOLD)]].

Definition main (envs : list cycle_env) : list event * loop_state :=
  let (evs, st) := loop_with Config.SCORE_THRESHOLD envs in
  ((banner ++ evs)%list, st).

(** The datagrams in a trace. *)
Definition datagrams (evs : list event) : list text :=
  flat_map (fun ev => match ev with SendTo p _ _ => [p] | _ => [] end) evs.

Definition sleeps (evs : list event) : list Z :=
  flat_map (fun ev => match ev with Sleep s => [s] | _ => [] end) evs.

(** *** Concrete cycles *)

Definition read_timeout : exn :=
  Exn RequestException
      "HTTPConnectionPool(host='localhost', port=3100): Read timed out. (read timeout=15)".

Definition network_unreachable : exn :=
  Exn OSError "[Errno 101] Network is unreachable".

(** A response with one stream of one line, [Throughput=0.10]. *)
Definition low_throughput_response : pyval :=
  PDict [("status", PStr "success");
         ("data",
          PDict [("resultType", PStr "streams");
                 ("result",
                  PList [PDict [("stream", PDict [("job", PStr "syslog")]);
                                ("values",
                                 PList [PList [PStr "1762210800000000000";
                                               PStr "olt1 Throughput=0.10"]])]])])].

(** A response with no [data] at all. *)
Definition empty_response : pyval := PDict [("status", PStr "success")].

(** The metrics of that response. *)
Definition low_throughput_metrics : metrics :=
  {| total := 1; log_rate := 0.2; security := 0; sec_rate := 0;
     errors := 0; err_rate := 0; thr_avg := Some 0.1%float |}.

Definition env_of (q : result pyval) (alert error : send_outcome) : cycle_env :=
  {| query := q;
     status_ts := "2025-11-03T23:00:00.000000";
     alert_ts := "Nov 03 23:00:00"; alert_send := alert;
     error_ts := "Nov 03 23:00:00"; error_send := error |}.

(** The query times out and the socket works. *)
Definition env_timeout : cycle_env := env_of (Raise read_timeout) Sent Sent.

(** The query times out and [sendto] fails as well. *)
Definition env_timeout_no_network : cycle_env :=
  env_of (Raise read_timeout)
         (SendFails network_unreachable) (SendFails network_unreachable).

(** The query answers and the socket works. *)
Definition env_low_throughput : cycle_env :=
  env_of (Ok low_throughput_response) Sent Sent.

Definition env_quiet : cycle_env := env_of (Ok empty_response) Sent Sent.

(** The query answers; [sendto] fails for the alert and works afterwards. *)
Definition env_alert_lost : cycle_env :=
  env_of (Ok low_throughput_response) (SendFails network_unreachable) Sent.

End Scheduler.

(* ================================================================= *)
(** ** The specification's wording, for comparison with the code *)

(** What the metrics computer counts, stated over the texts of a window
    without the loop. *)
Module MetricsSpec.

Definition count_if {A : Type} (f : A -> bool) (xs : list A) : Z :=
  Z.of_nat (List.length (filter f xs)).

Definition security_count (texts : list string) : Z :=
  count_if (fun t => Metrics.security_marker (PyStr.lower t)) texts.

Definition error_count (texts : list string) : Z :=
  count_if (fun t => Metrics.error_marker (PyStr.lower t)) texts.

(** The throughput value of one text: group 1 of the first match of the
    pattern, converted. *)
Definition throughput_of (text : string) : option float :=
  match Regex.search Regex.RE_THROUGHPUT text with
  | Some g => PyNum.py_float g
  | None => None
  end.

Definition throughput_values (texts : list string) : list float :=
  flat_map (fun t => match throughput_of t with
                     | Some v => [v]
                     | None => []
                     end) texts.

(** The specification has the pattern applied to the lower-cased text. *)
Definition throughput_values_lowered (texts : list string) : list float :=
  throughput_values (map PyStr.lower texts).


End MetricsSpec.

(** The response shape of the query interface: [data.result] is an array of
    objects whose [values] is an array of pairs, the first component a
    decimal timestamp. Each of [data], [result] and [values] may be
    missing. *)
Module Shape.

Fixpoint all_digits (s : string) : bool :=
  match s with
  | EmptyString => true
  | String c t => PyStr.is_digit c && all_digits t
  end.

(** A decimal literal as the group of the throughput pattern describes it:
    digits, an optional point, at least one more digit. *)
Definition decimal (g : string) : Prop :=
  exists d e, all_digits d = true /\ all_digits e = true /\ e <> "" /\
              (g = d ++ e \/ g = d ++ "." ++ e).

(** The characters of such a literal. *)
Definition numchar (c : ascii) : bool := PyStr.is_digit c || Ascii.eqb c ".".

Fixpoint numchars (s : string) : bool :=
  match s with
  | EmptyString => true
  | String c t => numchar c && numchars t
  end.

(** Where a run of digits stops: at the end of the input, or at a character
    that is neither a digit nor an underscore. *)
Definition stops (rest : string) : Prop :=
  match rest with
  | EmptyString => True
  | String c _ => PyStr.is_digit c = false /\ Ascii.eqb c "_" = false
  end.

Definition timestamp_ok (v : pyval) : bool :=
  match v with
  | PInt _ => true
  | PStr s =>
      negb (String.eqb s "") && all_digits s &&
      (Z.of_nat (String.length s) <=? PyNum.INT_MAX_STR_DIGITS)
  | _ => false
  end.

Definition entry_ok (v : pyval) : bool :=
  match v with
  | PList [ts; _] => timestamp_ok ts
  | _ => false
  end.

Definition field_ok (k : string) (ok : pyval -> bool) (v : pyval) : bool :=
  match v with
  | PDict d =>
      match Py.lookup k d with
      | Some x => ok x
      | None => true
      end
  | _ => false
  end.

Definition list_ok (ok : pyval -> bool) (v : pyval) : bool :=
  match v with
  | PList xs => forallb ok xs
  | _ => false
  end.

Definition stream_ok : pyval -> bool := field_ok "values" (list_ok entry_ok).

Definition data_ok : pyval -> bool := field_ok "result" (list_ok stream_ok).

Definition response_ok : pyval -> bool := field_ok "data" data_ok.



End Shape.

(* ================================================================= *)
(** ** The LogStore client: [to_ns], [loki_query_range] *)

Module LokiClient.

Local Open Scope result_scope.

(** [to_ns(dt)] is [int(dt.timestamp() * 1e9)]; [timestamp] is the float
    [dt.timestamp()], seconds since the epoch. *)
Definition to_ns (timestamp : float) : result Z :=
  Py.int (PFloat (timestamp * 1e9)%float).

(** The parameters of the request. [str(n)] of an integer is kept as the
    integer. *)
Record params : Type := Params {
  p_query     : string;
  p_start     : Z;
  p_end       : Z;
  p_limit     : Z;
  p_direction : string
}.

(** What [requests.get(..., timeout=15)] meets: no answer (connection
    error, timeout), or an answer with its status, the text of the
    [HTTPError] that [raise_for_status] builds for it, and what [r.json()]
    gives. *)
Inductive http_outcome : Type :=
| NoAnswer (e : exn)
| Answer (status : Z) (error_text : string) (json : result pyval).

(** [r.raise_for_status()]: statuses 400 to 599 raise. *)
Definition raise_for_status (status : Z) (error_text : string) : result unit :=
  if (400 <=? status) && (status <? 600)
  then Raise (Exn RequestException error_text)
  else Ok tt.

(** [start_ts] and [end_ts] are the [timestamp()] of [start_dt] and
    [end_dt]; [http] is the backend, answering a request. *)
Definition loki_query_range (http : params -> http_outcome) (query : string)
           (start_ts end_ts : float) (limit : Z) : result pyval :=
  s <- to_ns start_ts ;;
  e <- to_ns end_ts ;;
  match http (Params query s e limit "BACKWARD") with
  | NoAnswer ex => Raise ex
  | Answer status error_text json =>
      _ <- raise_for_status status error_text ;;
      json
  end.

(** [QUERY], and the default of [limit]. *)
Definition QUERY : string :=
  "{job=" ++ PyStr.dquote ++ "syslog" ++ PyStr.dquote ++ ", source="
          ++ PyStr.dquote ++ "syslogng" ++ PyStr.dquote ++ "}".
Definition DEFAULT_LIMIT : Z := 5000.

(** A cycle of the scheduler whose query is this client's, against the
    backend [http] at the clock readings [start_ts], [end_ts]. *)
Definition cycle_env_of (http : params -> http_outcome) (start_ts end_ts : float)
           (clock : string) (alert error : Emitter.send_outcome)
  : Scheduler.cycle_env :=
  {| Scheduler.query := loki_query_range http QUERY start_ts end_ts DEFAULT_LIMIT;
     Scheduler.status_ts := clock;
     Scheduler.alert_ts := clock; Scheduler.alert_send := alert;
     Scheduler.error_ts := clock; Scheduler.error_send := error |}.

End LokiClient.

(* ================================================================= *)
(** ** Reading traces and responses *)

Module Trace.

Definition opens (evs : list event) : nat :=
  List.length (filter (fun ev => match ev with SocketOpen => true | _ => false end) evs).

Definition closes (evs : list event) : nat :=
  List.length (filter (fun ev => match ev with SocketClose => true | _ => false end) evs).

(** A response read without the extractor: the field [k] of an object,
    [default] when it is missing; the elements of an array. *)
Definition field (k : string) (default : pyval) (v : pyval) : pyval :=
  match v with
  | PDict d => match Py.lookup k d with Some x => x | None => default end
  | _ => default
  end.

Definition items (v : pyval) : list pyval :=
  match v with
  | PList l => l
  | _ => []
  end.

(** All the entries of all the streams of a response, in the order of the
    response. *)
Definition entries (response : pyval) : list pyval :=
  flat_map (fun stream => items (field "values" (PList []) stream))
           (items (field "result" (PList []) (field "data" (PDict []) response))).

(** The entry [[ts_ns, text]] that the line [l] comes from. *)
Definition line_of_entry (l : Z * pyval) (entry : pyval) : Prop :=
  exists ts, entry = PList [ts; snd l] /\ Py.int ts = Ok (fst l).

(** Whether, for every count [n] from 0 to [bound], the rate [n / 5]
    reaches [cut] exactly when [n] reaches [least]. *)
Definition rate_rule_agrees (cut : float) (least : Z) (bound : nat) : bool :=
  forallb (fun i => Bool.eqb (Scoring.ge_int (PyNum.int_truediv (Z.of_nat i)
                                                (Z.max Config.WINDOW_MINUTES 1)) cut)
                             (least <=? Z.of_nat i))
          (seq 0 (S bound)).

End Trace.

(* ================================================================= *)
(** ** The CSV tool ([src/csv_to_syslog.py]) *)

Module CsvTool.

Definition UDP_IP : string := "127.0.0.1".
Definition UDP_PORT : Z := 5140.

(** A row as [csv.DictReader] yields it: the columns in the order of the
    header, each with its text, or [None] when the row is shorter than the
    header. (A row longer than the header also carries the list of its
    extra cells under the key [None]; such rows are not represented.) *)
Definition row : Type := list (string * option string).

(** [row[c]] when [c in row]. *)
Fixpoint row_get (c : string) (r : row) : option (option string) :=
  match r with
  | [] => None
  | (k, v) :: rest => if String.eqb c k then Some v else row_get c rest
  end.

(** [v not in (None, "", "NA", "NaN")] *)
Definition usable (v : option string) : bool :=
  match v with
  | None => false
  | Some s => negb (String.eqb s "" || String.eqb s "NA" || String.eqb s "NaN")
  end.

Fixpoint pick (r : row) (candidates : list string) : option string :=
  match candidates with
  | [] => None
  | c :: rest =>
      match row_get c r with
      | Some v => if usable v then v else pick r rest
      | None => pick r rest
      end
  end.

(** No candidate of [cs] has a usable value in [r]. *)
Definition none_usable (r : row) (cs : list string) : Prop :=
  Forall (fun c => forall x, row_get c r = Some x -> usable x = false) cs.

(** [x or default], for [x] a string or [None]. *)
Definition py_or (x : option string) (default : string) : string :=
  match x with
  | None => default
  | Some EmptyString => default
  | Some s => s
  end.

(** [s.replace(" ", "_")] *)
Fixpoint replace_spaces (s : string) : string :=
  match s with
  | EmptyString => EmptyString
  | String c t => String (if Ascii.eqb c " " then "_"%char else c) (replace_spaces t)
  end.

(** [" ".join([f"{k}={str(v).strip()}" for k, v in row.items()
                if v not in (None, "", "NA", "NaN")][:12])] *)
Definition compact (r : row) : string :=
  String.concat " "
    (firstn 12
       (flat_map (fun kv => match snd kv with
                            | Some v => if usable (Some v)
                                        then [fst kv ++ "=" ++ PyStr.strip v]
                                        else []
                            | None => []
                            end) r)).

Definition TS_FIELDS : list string :=
  ["timestamp"; "time"; "date"; "Date"; "Time"; "Datetime"; "Timestamp"].
Definition HOST_FIELDS : list string :=
  ["host"; "device"; "Device"; "hostname"; "Host"; "source"; "Source";
   "src_ip"; "Source IP"].
Definition SEV_FIELDS : list string :=
  ["severity"; "level"; "Severity"; "Level"; "priority"; "Priority"].
Definition EVT_FIELDS : list string :=
  ["event"; "event_type"; "Event"; "Event Type"; "action"; "Action";
   "log_type"; "Log Type"].
Definition MSG_FIELDS : list string :=
  ["message"; "Message"; "description"; "Description"; "msg"; "log"; "Log";
   "details"; "Details"].

(** The message of a row: the picked one, else the compacted columns, else
    [no_message]. *)
Definition row_message (r : row) : string :=
  match pick r MSG_FIELDS with
  | Some (String c t) => String c t
  | _ => match compact r with
         | EmptyString => "no_message"
         | m => m
         end
  end.

Definition row_host (r : row) : string :=
  replace_spaces (py_or (pick r HOST_FIELDS) "unknown-host").

Definition row_severity (r : row) : string :=
  PyStr.lower (py_or (pick r SEV_FIELDS) "info").

Definition row_event (source_tag : string) (r : row) : string :=
  replace_spaces (py_or (pick r EVT_FIELDS) source_tag).

(** The f-string of the line, from its parts. *)
Definition format_line (ts host source_tag sev evt msg : string) : string :=
  ts ++ " " ++ host ++ " " ++ source_tag ++ ": severity=" ++ sev
     ++ " event=" ++ evt ++ " " ++ msg.

Section Library.

(** The standard library's [datetime]: the parser [strptime(v, fmt)], [None]
    when it raises [ValueError], and the formatter [strftime(fmt)]. The
    properties below hold whatever these two do. *)
Variable datetime : Type.
Variable strptime : string -> string -> option datetime.
Variable strftime : datetime -> string -> string.

Definition SYSLOG_FORMAT : string := "%b %d %H:%M:%S".

Definition FORMATS : list string :=
  ["%Y-%m-%d %H:%M:%S"; "%Y-%m-%dT%H:%M:%S"; "%Y-%m-%dT%H:%M:%SZ";
   "%m/%d/%Y %H:%M:%S"; "%d/%m/%Y %H:%M:%S"].

(** The [for fmt in (...)] loop: the first format that parses [v] gives the
    result. *)
Fixpoint try_formats (v : string) (fmts : list string) : option string :=
  match fmts with
  | [] => None
  | fmt :: rest =>
      match strptime v fmt with
      | Some dt => Some (strftime dt SYSLOG_FORMAT)
      | None => try_formats v rest
      end
  end.

(** [now] is [datetime.now()] at the call. *)
Definition normalize_ts (now : datetime) (value : option string) : string :=
  match value with
  | None | Some EmptyString => strftime now SYSLOG_FORMAT
  | Some value =>
      let v := PyStr.strip value in
      match try_formats v FORMATS with
      | Some s => s
      | None =>
          if (15 <=? String.length v)%nat &&
             match String.get 3 v with
             | Some c => Ascii.eqb c " "
             | None => false
             end
          then PyStr.take 15 v
          else strftime now SYSLOG_FORMAT
      end
  end.

(** The line of one row. *)
Definition row_line (source_tag : string) (now : datetime) (r : row) : string :=
  format_line (normalize_ts now (pick r TS_FIELDS)) (row_host r) source_tag
              (row_severity r) (row_event source_tag r) (row_message r).

(** The lines of all the rows, without a limit. *)
Definition all_lines (source_tag : string) (rows : list (datetime * row))
  : list string :=
  map (fun nr => row_line source_tag (fst nr) (snd nr)) rows.

(** The generator's loop, from the rows still to read and the value of
    [count]: every row comes with the clock reading of its turn. *)
Fixpoint lines_from (source_tag : string) (limit count : Z)
         (rows : list (datetime * row)) : list string :=
  match rows with
  | [] => []
  | (now, r) :: rest =>
      row_line source_tag now r ::
      (let count := count + 1 in
       if negb (limit =? 0) && (limit <=? count) then []
       else lines_from source_tag limit count rest)
  end.

(** The lines [csv_to_syslog_lines(csv_path, source_tag, limit)] yields when
    the file opens and [csv.DictReader] reads [rows] from it. *)
Definition csv_to_syslog_lines (rows : list (datetime * row)) (source_tag : string)
           (limit : Z) : list string :=
  lines_from source_tag limit 0 rows.

End Library.

(** What the socket does during [send_udp]: every datagram is sent, or
    creating the socket raises, or the [sendto] of the line of index [k]
    raises. *)
Inductive udp_outcome : Type :=
| AllSent
| NoSocket (e : exn)
| FailsAt (k : nat) (e : exn).

(** The datagram of a line. *)
Definition datagram (line : string) : event := SendTo [Txt line] UDP_IP UDP_PORT.

(** The [for line in lines] loop from the line of index [i] on, [sent] lines
    sent so far. *)
Fixpoint send_all (o : udp_outcome) (i : nat) (lines : list string) (sent : Z)
  : prog Z :=
  match lines with
  | [] => Prog.ret sent
  | line :: rest =>
      Prog.bind
        match o with
        | FailsAt k e => if Nat.eqb k i then Prog.raise e
                         else Prog.emit (datagram line)
        | _ => Prog.emit (datagram line)
        end
        (fun _ => send_all o (S i) rest (sent + 1))
  end.

Definition send_udp (o : udp_outcome) (lines : list string) : prog Z :=
  Prog.bind
    match o with
    | NoSocket e => Prog.raise e
    | _ => Prog.emit SocketOpen
    end
    (fun _ =>
       Prog.bind (send_all o 0 lines 0)
                 (fun sent => Prog.bind (Prog.emit SocketClose)
                                        (fun _ => Prog.ret sent))).

End CsvTool.

(* ================================================================= *)
(** * Properties *)

(* ================================================================= *)
(** ** The order on binary64 values *)

Module FloatOrder.

Lemma SFleb_trans (x y z : spec_float) :
  SFleb x y = true -> SFleb y z = true -> SFleb x z = true.
Proof.
  unfold SFleb, SFcompare.
  destruct x as [sx|sx| |sx mx ex], y as [sy|sy| |sy my ey], z as [sz|sz| |sz mz ez];
    try destruct sx; try destruct sy; try destruct sz;
    try reflexivity; try discriminate;
    change (Pos.compare_cont Eq ?a ?b) with (Pos.compare a b);
    destruct (Z.compare_spec ex ey), (Z.compare_spec ey ez), (Z.compare_spec ex ez);
    try reflexivity; try discriminate; try lia; subst;
    destruct (Pos.compare_spec mx my), (Pos.compare_spec my mz), (Pos.compare_spec mx mz);
    try reflexivity; try discriminate; try lia.
Qed.

Lemma SFleb_ltb_trans (x y z : spec_float) :
  SFleb x y = true -> SFltb y z = true -> SFltb x z = true.
Proof.
  unfold SFleb, SFltb, SFcompare.
  destruct x as [sx|sx| |sx mx ex], y as [sy|sy| |sy my ey], z as [sz|sz| |sz mz ez];
    try destruct sx; try destruct sy; try destruct sz;
    try reflexivity; try discriminate;
    change (Pos.compare_cont Eq ?a ?b) with (Pos.compare a b);
    destruct (Z.compare_spec ex ey), (Z.compare_spec ey ez), (Z.compare_spec ex ez);
    try reflexivity; try discriminate; try lia; subst;
    destruct (Pos.compare_spec mx my), (Pos.compare_spec my mz), (Pos.compare_spec mx mz);
    try reflexivity; try discriminate; try lia.
Qed.

Local Open Scope float_scope.

Lemma leb_trans (x y z : float) :
  (x <=? y) = true -> (y <=? z) = true -> (x <=? z) = true.
Proof. rewrite !leb_spec. apply SFleb_trans. Qed.

Lemma leb_ltb_trans (x y z : float) :
  (x <=? y) = true -> (y <? z) = true -> (x <? z) = true.
Proof. rewrite !leb_spec, !ltb_spec. apply SFleb_ltb_trans. Qed.

End FloatOrder.

(* ================================================================= *)
(** ** The scoring engine *)

Module ScoringProps.

Import Scoring.
Local Open Scope float_scope.

(** Case analysis on which of the four conditions hold for [m]. *)
Ltac rule_cases m :=
  unfold score, reasons, rule_table_score, fired, rules, clamp1,
    rule_log_rate, rule_security_rate, rule_error_rate, rule_low_throughput,
    simple_score, bump, ge_int, thr_below;
  cbn [filter fires weight tag map fold_left fst snd];
  destruct (20 <=? log_rate m), (5 <=? sec_rate m), (2 <=? err_rate m);
  (destruct (thr_avg m) as [?t|]; [destruct (_ <? 0.25)|]).

(** C1: [simple_score] evaluates exactly four additive rules in the fixed
    order log rate (>= 20, +0.35, high_log_rate), security rate (>= 5, +0.35,
    high_security_rate), error rate (>= 2, +0.20, high_error_rate),
    throughput (present and < 0.25, +0.30, low_throughput); the score is the
    sum of the weights of the rules that fired, clamped to at most 1.0, and
    the reasons are exactly the tags of those rules, in that order. *)
Theorem simple_score_is_rule_table (m : metrics) :
  map (fun r => (weight r, tag r)) rules =
    [(0.35, "high_log_rate"); (0.35, "high_security_rate");
     (0.20, "high_error_rate"); (0.30, "low_throughput")]
  /\ map (fun r => fires r m) rules =
    [20 <=? log_rate m; 5 <=? sec_rate m; 2 <=? err_rate m;
     match thr_avg m with Some t => t <? 0.25 | None => false end]
  /\ simple_score m =
    (clamp1 (fold_left (fun s r => s + weight r) (fired m) 0),
     map tag (fired m)).
Proof.
  split; [reflexivity|]. split; [reflexivity|].
  change (simple_score m = rule_table_score m).
  rule_cases m; reflexivity.
Qed.

(** C2: for every metrics snapshot, whatever its rates and its optional
    throughput average are, the score lies in the closed interval [0, 1]. *)
Theorem score_in_unit_interval (m : metrics) :
  (0 <=? score m) = true /\ (score m <=? 1) = true.
Proof. rule_cases m; split; reflexivity. Qed.

(** C7: the reasons are not empty whenever the score is greater than 0, and
    when none of the four rule conditions holds the score is exactly 0 and
    the reasons are empty. *)
Theorem reasons_explain_score (m : metrics) :
  ((0 <? score m) = true -> reasons m <> []) /\
  (Forall (fun r => fires r m = false) rules -> simple_score m = (0, [])).
Proof.
  split.
  - rule_cases m; intros H; try discriminate; inversion H.
  - intros H. unfold rules in H.
    repeat match goal with
           | H : Forall _ (_ :: _) |- _ => inversion H; subst; clear H
           end.
    cbv [fires rule_log_rate rule_security_rate rule_error_rate
         rule_low_throughput] in *.
    unfold simple_score, bump, ge_int, thr_below.
    repeat match goal with
           | H : _ = false |- _ => rewrite H; clear H
           end.
    reflexivity.
Qed.

Lemma reasons_explain_score_witness :
  reasons (Metrics 100 20 0 0 0 0 None) <> []
  /\ simple_score (Metrics 0 0 0 0 0 0 None) = (0, []).
Proof.
  refine (conj (proj1 (reasons_explain_score (Metrics 100 20 0 0 0 0 None)) eq_refl)
               (proj2 (reasons_explain_score (Metrics 0 0 0 0 0 0 None)) _)).
  repeat constructor.
Defined.

Lemma ge_int_mono (k x y : float) :
  (x <=? y) = true -> ge_int x k = true -> ge_int y k = true.
Proof. unfold ge_int. intros Hxy Hk. exact (FloatOrder.leb_trans k x y Hk Hxy). Qed.

Lemma thr_below_anti (c x y : float) :
  (x <=? y) = true -> thr_below (Some y) c = true -> thr_below (Some x) c = true.
Proof. cbn. intros Hxy Hy. exact (FloatOrder.leb_ltb_trans x y c Hxy Hy). Qed.

(** The score as a function of which conditions hold. *)
Lemma score_of_conditions (m : metrics) :
  score m =
  fst (let st := (0.0, @nil string) in
       let st := bump (ge_int (log_rate m) 20) 0.35 "high_log_rate" st in
       let st := bump (ge_int (sec_rate m) 5) 0.35 "high_security_rate" st in
       let st := bump (ge_int (err_rate m) 2) 0.20 "high_error_rate" st in
       let st := bump (thr_below (thr_avg m) 0.25) 0.30 "low_throughput" st in
       (if 1.0 <? fst st then 1.0 else fst st, snd st)).
Proof. reflexivity. Qed.

(** [H] says that one condition can only switch on between the two sides;
    the other three are the same on both. *)
Ltac flip_one H :=
  match type of H with
  | ?a = true -> ?b = true =>
      destruct a; [rewrite (H eq_refl)|destruct b]; clear H
  end;
  repeat match goal with
         | |- context [ge_int ?x ?k] => destruct (ge_int x k)
         | |- context [thr_below ?x ?k] => destruct (thr_below x k)
         end;
  reflexivity.

(** C6: with the other fields held fixed, the score does not decrease when
    the log rate, the security rate or the error rate grows, and it does not
    increase when the throughput average grows (in particular between two
    values below the cutoff 0.25). *)
Theorem score_monotone (m1 m2 : metrics) :
  (sec_rate m1 = sec_rate m2 -> err_rate m1 = err_rate m2 ->
   thr_avg m1 = thr_avg m2 ->
   (log_rate m1 <=? log_rate m2) = true -> (score m1 <=? score m2) = true) /\
  (log_rate m1 = log_rate m2 -> err_rate m1 = err_rate m2 ->
   thr_avg m1 = thr_avg m2 ->
   (sec_rate m1 <=? sec_rate m2) = true -> (score m1 <=? score m2) = true) /\
  (log_rate m1 = log_rate m2 -> sec_rate m1 = sec_rate m2 ->
   thr_avg m1 = thr_avg m2 ->
   (err_rate m1 <=? err_rate m2) = true -> (score m1 <=? score m2) = true) /\
  (log_rate m1 = log_rate m2 -> sec_rate m1 = sec_rate m2 ->
   err_rate m1 = err_rate m2 ->
   forall t1 t2, thr_avg m1 = Some t1 -> thr_avg m2 = Some t2 ->
   (t1 <=? t2) = true -> (score m2 <=? score m1) = true).
Proof.
  repeat split.
  - intros E1 E2 E3 H. pose proof (ge_int_mono 20 _ _ H) as M.
    rewrite !score_of_conditions, E1, E2, E3; flip_one M.
  - intros E1 E2 E3 H. pose proof (ge_int_mono 5 _ _ H) as M.
    rewrite !score_of_conditions, E1, E2, E3; flip_one M.
  - intros E1 E2 E3 H. pose proof (ge_int_mono 2 _ _ H) as M.
    rewrite !score_of_conditions, E1, E2, E3; flip_one M.
  - intros E1 E2 E3 t1 t2 E4 E5 H. pose proof (thr_below_anti 0.25 _ _ H) as M.
    rewrite !score_of_conditions, E1, E2, E3, E4, E5; flip_one M.
Qed.

Lemma score_monotone_witness :
  (score (Metrics 0 19.5 0 0 0 0 None) <=? score (Metrics 0 20 0 0 0 0 None)) = true
  /\ (score (Metrics 0 0 0 4 0 0 None) <=? score (Metrics 0 0 0 5 0 0 None)) = true
  /\ (score (Metrics 0 0 0 0 0 1 None) <=? score (Metrics 0 0 0 0 0 2 None)) = true
  /\ (score (Metrics 0 0 0 0 0 0 (Some 0.2)) <=?
      score (Metrics 0 0 0 0 0 0 (Some 0.1))) = true.
Proof.
  refine (conj _ (conj _ (conj _ _))).
  - exact (proj1 (score_monotone (Metrics 0 19.5 0 0 0 0 None)
                                 (Metrics 0 20 0 0 0 0 None))
                 eq_refl eq_refl eq_refl eq_refl).
  - exact (proj1 (proj2 (score_monotone (Metrics 0 0 0 4 0 0 None)
                                        (Metrics 0 0 0 5 0 0 None)))
                 eq_refl eq_refl eq_refl eq_refl).
  - exact (proj1 (proj2 (proj2 (score_monotone (Metrics 0 0 0 0 0 1 None)
                                               (Metrics 0 0 0 0 0 2 None))))
                 eq_refl eq_refl eq_refl eq_refl).
  - exact (proj2 (proj2 (proj2 (score_monotone (Metrics 0 0 0 0 0 0 (Some 0.1))
                                               (Metrics 0 0 0 0 0 0 (Some 0.2)))))
                 eq_refl eq_refl eq_refl 0.1 0.2 eq_refl eq_refl eq_refl).
Defined.

End ScoringProps.

(* ================================================================= *)
(** ** The throughput pattern captures decimal literals *)

Module RegexProps.

Import Regex Shape.

Lemma accepts_digit c : accepts digit c = PyStr.is_digit c.
Proof. reflexivity. Qed.

Lemma match_here_star a r s g :
  match_here (Ch a Star :: r) s g =
  match s with
  | String c t =>
      if accepts a c then
        match match_here (Ch a Star :: r) t g with
        | Some res => Some res
        | None => match_here r s g
        end
      else match_here r s g
  | EmptyString => match_here r s g
  end.
Proof. destruct s; reflexivity. Qed.

Lemma match_here_plus a r s g :
  match_here (Ch a Plus :: r) s g =
  match s with
  | String c t => if accepts a c then match_here (Ch a Star :: r) t g else None
  | EmptyString => None
  end.
Proof. destruct s; reflexivity. Qed.

Lemma match_here_opt a r s g :
  match_here (Ch a Opt :: r) s g =
  match s with
  | String c t =>
      if accepts a c then
        match match_here r t g with
        | Some res => Some res
        | None => match_here r s g
        end
      else match_here r s g
  | EmptyString => match_here r s g
  end.
Proof. destruct s; reflexivity. Qed.

Lemma match_digit_star r g res s :
  match_here (Ch digit Star :: r) s g = Some res ->
  exists d s', s = d ++ s' /\ all_digits d = true /\ match_here r s' g = Some res.
Proof.
  induction s as [|c t IH]; rewrite match_here_star.
  - intros H. exists "", "". auto.
  - rewrite accepts_digit. destruct (PyStr.is_digit c) eqn:Hc.
    + destruct (match_here (Ch digit Star :: r) t g) as [res'|] eqn:Ht.
      * intros H. destruct (IH H) as (d & s' & -> & Hd & Hr).
        exists (String c d), s'. cbn. rewrite Hc, Hd. auto.
      * intros H. exists "", (String c t). auto.
    + intros H. exists "", (String c t). auto.
Qed.

Lemma match_literal p r g res : forall s,
  match_here (literal p ++ r) s g = Some res ->
  exists s', s = p ++ s' /\ match_here r s' g = Some res.
Proof.
  induction p as [|c p IH]; intros s.
  - intros H. exists s. auto.
  - cbn. destruct s as [|c' t]; [discriminate|].
    destruct (Ascii.eqb_spec c' c) as [->|]; [|discriminate].
    intros H. destruct (IH t H) as (s' & -> & Hr). exists s'. auto.
Qed.

Lemma all_digits_app d e :
  all_digits (d ++ e) = all_digits d && all_digits e.
Proof.
  induction d as [|c d IH]; cbn; [reflexivity|].
  rewrite IH. apply andb_assoc.
Qed.

Lemma append_assoc (a b c : string) : (a ++ b) ++ c = a ++ (b ++ c).
Proof. induction a as [|x a IH]; cbn; [reflexivity|]. now rewrite IH. Qed.

Lemma append_nil_r (a : string) : a ++ "" = a.
Proof. induction a as [|x a IH]; cbn; [reflexivity|]. now rewrite IH. Qed.

(** The group's part of the pattern consumes a decimal literal. *)
Lemma match_group go res s :
  match_here [Ch digit Star; Ch (Lit ".") Opt; Ch digit Plus] s go = Some res ->
  exists g r, s = g ++ r /\ res = (go, r) /\ decimal g.
Proof.
  intros H. apply match_digit_star in H. destruct H as (d & s1 & -> & Hd & H).
  assert (P : forall s2,
             match_here [Ch digit Plus] s2 go = Some res ->
             exists e r, s2 = e ++ r /\ res = (go, r) /\
                         all_digits e = true /\ e <> "").
  { intros s2 H2. rewrite match_here_plus in H2.
    destruct s2 as [|c t]; [discriminate|].
    rewrite accepts_digit in H2. destruct (PyStr.is_digit c) eqn:Hc; [|discriminate].
    apply match_digit_star in H2. destruct H2 as (e & r & -> & He & H2).
    cbn in H2. injection H2 as <-.
    exists (String c e), r. cbn. rewrite Hc, He. repeat split; congruence. }
  rewrite match_here_opt in H.
  destruct s1 as [|c t].
  - destruct (P _ H) as (e & r & E & _ & _ & Hne). destruct e; [congruence|discriminate].
  - destruct (accepts (Lit ".") c) eqn:Hdot.
    + apply Ascii.eqb_eq in Hdot. subst c.
      destruct (match_here [Ch digit Plus] t go) as [res'|] eqn:Ht.
      * injection H as <-. destruct (P _ Ht) as (e & r & -> & -> & He & Hne).
        exists (d ++ "." ++ e), r. rewrite !append_assoc. repeat split.
        exists d, e. auto.
      * destruct (P _ H) as (e & r & E & -> & He & Hne).
        exists (d ++ e), r. rewrite append_assoc, E. repeat split.
        exists d, e. auto.
    + destruct (P _ H) as (e & r & E & -> & He & Hne).
      exists (d ++ e), r. rewrite append_assoc, E. repeat split.
      exists d, e. auto.
Qed.

Lemma take_app g r :
  PyStr.take (String.length (g ++ r) - String.length r) (g ++ r) = g.
Proof.
  assert (L : forall g, String.length (g ++ r) = (String.length g + String.length r)%nat).
  { intros g0. induction g0 as [|c g0 IH]; cbn; [reflexivity|]. now rewrite IH. }
  rewrite L. replace (String.length g + String.length r - String.length r)%nat
    with (String.length g) by lia.
  induction g as [|c g IH]; cbn.
  - destruct r; reflexivity.
  - now rewrite IH.
Qed.

Lemma search_eq p s :
  search p s =
  match match_here p s None with
  | Some res => group1 res
  | None =>
      match s with
      | EmptyString => None
      | String _ t => search p t
      end
  end.
Proof. destruct s; reflexivity. Qed.

(** Every match of the throughput pattern captures a decimal literal. *)
Lemma search_decimal line g :
  search RE_THROUGHPUT line = Some g -> decimal g.
Proof.
  induction line as [|c t IH]; rewrite search_eq.
  - cbn. discriminate.
  - destruct (match_here RE_THROUGHPUT (String c t) None) as [res|] eqn:Hm; [|exact IH].
    unfold RE_THROUGHPUT in Hm. apply match_literal in Hm.
    destruct Hm as (s' & _ & Hm). cbn [match_here] in Hm.
    apply match_group in Hm. destruct Hm as (g' & r & -> & -> & Hg).
    unfold group1. cbn [fst snd]. rewrite take_app. congruence.
Qed.

End RegexProps.

(* ================================================================= *)
(** ** [float] accepts decimal literals *)

Module FloatParseProps.

Import PyStr PyNum Shape RegexProps.

(** Facts about single characters, by enumeration of the 256 of them. *)
Ltac by_char c :=
  destruct c as [[] [] [] [] [] [] [] []]; try discriminate; try reflexivity.

Lemma numchar_not_space c : numchar c = true -> is_space c = false.
Proof. by_char c. Qed.

Lemma numchar_no_sign c t : numchar c = true -> opt_sign (String c t) = (false, String c t).
Proof. by_char c. Qed.

Lemma numchar_not_special c t : numchar c = true -> special (String c t) = None.
Proof. by_char c. Qed.

Lemma digit_not_underscore c : is_digit c = true -> Ascii.eqb c "_" = false.
Proof. by_char c. Qed.

Lemma dot_not_digit : is_digit "." = false.
Proof. reflexivity. Qed.

Lemma rstrip_numchars s : numchars s = true -> rstrip s = s.
Proof.
  induction s as [|c t IH]; cbn; [reflexivity|].
  intros H. apply andb_prop in H. destruct H as [Hc Ht].
  rewrite (IH Ht). rewrite (numchar_not_space c Hc). destruct t; reflexivity.
Qed.

Lemma strip_numchars s : numchars s = true -> strip s = s.
Proof.
  intros H. unfold strip.
  assert (L : lstrip s = s).
  { destruct s as [|c t]; [reflexivity|]. cbn in *.
    apply andb_prop in H. destruct H as [Hc _].
    now rewrite (numchar_not_space c Hc). }
  rewrite L. now apply rstrip_numchars.
Qed.

Lemma numchars_app a b : numchars (a ++ b) = numchars a && numchars b.
Proof.
  induction a as [|c a IH]; cbn; [reflexivity|].
  rewrite IH. apply andb_assoc.
Qed.

Lemma all_digits_numchars d : all_digits d = true -> numchars d = true.
Proof.
  induction d as [|c d IH]; cbn; [reflexivity|].
  intros H. apply andb_prop in H. destruct H as [Hc Hd].
  unfold numchar. rewrite Hc, (IH Hd). reflexivity.
Qed.

Lemma digit_run_digits d rest : stops rest -> all_digits d = true ->
  forall acc n, exists acc',
    digit_run (d ++ rest) acc n = (acc', n + Z.of_nat (String.length d), rest).
Proof.
  intros Hrest. induction d as [|c d IH]; intros Hd acc n.
  - exists acc. cbn [append String.length Z.of_nat]. rewrite Z.add_0_r.
    destruct rest as [|c t]; [reflexivity|].
    destruct Hrest as [H1 H2]. cbn. now rewrite H1, H2.
  - cbn in Hd. apply andb_prop in Hd. destruct Hd as [Hc Hd].
    destruct (IH Hd (10 * acc + digit_val c) (n + 1)) as [acc' E].
    exists acc'. cbn [append digit_run]. rewrite Hc, E. f_equal. f_equal.
    cbn [String.length]. lia.
Qed.

Lemma digitpart_digits d rest : stops rest -> all_digits d = true -> d <> "" ->
  forall acc n, exists acc',
    digitpart (d ++ rest) acc n = Some (acc', n + Z.of_nat (String.length d), rest).
Proof.
  intros Hrest Hd Hne acc n. destruct d as [|c d]; [congruence|].
  cbn in Hd. apply andb_prop in Hd. destruct Hd as [Hc Hd].
  destruct (digit_run_digits d rest Hrest Hd (10 * acc + digit_val c) (n + 1))
    as [acc' E].
  exists acc'. cbn [append digitpart]. rewrite Hc, E. f_equal. f_equal. f_equal.
  cbn [String.length]. lia.
Qed.

(** [number] reads a decimal literal to its end. *)
Lemma number_decimal g : decimal g -> exists m k, number g = Some (m, k, "").
Proof.
  intros (d & e & Hd & He & Hne & [-> | ->]).
  - assert (Hde : all_digits (d ++ e) = true) by (rewrite all_digits_app, Hd, He; reflexivity).
    assert (Hne' : d ++ e <> "") by (destruct d; [exact Hne|discriminate]).
    destruct (digitpart_digits (d ++ e) "" I Hde Hne' 0 0) as [m E].
    rewrite append_nil_r in E. unfold number. rewrite E. eauto.
  - destruct d as [|c d].
    + destruct (digitpart_digits e "" I He Hne 0 0) as [m E].
      rewrite append_nil_r in E.
      unfold number. cbn [append digitpart]. rewrite dot_not_digit.
      cbn [Ascii.eqb Bool.eqb]. rewrite E. eauto.
    + assert (Hs : stops ("." ++ e)) by (cbn; auto).
      destruct (digitpart_digits (String c d) ("." ++ e) Hs Hd ltac:(discriminate) 0 0)
        as [m E].
      unfold number. rewrite E. cbn [append]. cbn [Ascii.eqb Bool.eqb].
      destruct (digitpart_digits e "" I He Hne m 0) as [m' E'].
      rewrite append_nil_r in E'. rewrite E'. eauto.
Qed.

Lemma decimal_numchars g : decimal g -> numchars g = true /\ g <> "".
Proof.
  intros (d & e & Hd & He & Hne & [-> | ->]).
  - rewrite numchars_app, (all_digits_numchars d Hd), (all_digits_numchars e He).
    split; [reflexivity|]. destruct d; [exact Hne|discriminate].
  - rewrite !numchars_app, (all_digits_numchars d Hd), (all_digits_numchars e He).
    split; [reflexivity|]. destruct d; discriminate.
Qed.

(** [float] accepts every decimal literal. *)
Lemma py_float_decimal g : decimal g -> exists v, py_float g = Some v.
Proof.
  intros Hg. destruct (decimal_numchars g Hg) as [Hn Hne].
  destruct (number_decimal g Hg) as (m & k & Hnum).
  unfold py_float. rewrite (strip_numchars g Hn).
  destruct g as [|c t]; [congruence|].
  cbn in Hn. apply andb_prop in Hn. destruct Hn as [Hc _].
  rewrite (numchar_no_sign c t Hc), (numchar_not_special c t Hc), Hnum.
  cbn. eauto.
Qed.

End FloatParseProps.

(* ================================================================= *)
(** ** The metrics computer *)

Module MetricsProps.

Import Metrics MetricsSpec RegexProps FloatParseProps.

Lemma throughput_of_match line g :
  Regex.search Regex.RE_THROUGHPUT line = Some g ->
  exists v, PyNum.py_float g = Some v /\ throughput_of line = Some v.
Proof.
  intros H. destruct (py_float_decimal g (search_decimal line g H)) as [v Hv].
  exists v. unfold throughput_of. rewrite H. auto.
Qed.

Lemma throughput_of_none line :
  throughput_of line = None <-> Regex.search Regex.RE_THROUGHPUT line = None.
Proof.
  split; intros H.
  - destruct (Regex.search Regex.RE_THROUGHPUT line) as [g|] eqn:E; [|reflexivity].
    destruct (throughput_of_match line g E) as (v & _ & Hv). congruence.
  - unfold throughput_of. now rewrite H.
Qed.

Lemma scan_throughput_spec line vals :
  scan_throughput line vals =
  (vals ++ match throughput_of line with Some v => [v] | None => [] end)%list.
Proof.
  unfold scan_throughput, throughput_of.
  destruct (Regex.search Regex.RE_THROUGHPUT line) as [g|].
  - destruct (PyNum.py_float g); [reflexivity|now rewrite app_nil_r].
  - now rewrite app_nil_r.
Qed.

Lemma count_if_cons {A : Type} (f : A -> bool) x xs :
  count_if f (x :: xs) = (if f x then 1 else 0) + count_if f xs.
Proof.
  unfold count_if. cbn [filter]. destruct (f x); cbn [List.length]; lia.
Qed.

(** The loop of [compute_metrics] over a window of texts. *)
Lemma scan_lines (lines : list (Z * string)) : forall c,
  for_each scan_line (log_lines lines) c =
  Ok (Counters (c_security c + security_count (map snd lines))
               (c_errors c + error_count (map snd lines))
               (c_thr_vals c ++ throughput_values (map snd lines))).
Proof.
  induction lines as [|[ts text] rest IH]; intros [s e v].
  - cbn. unfold security_count, error_count, count_if. cbn.
    now rewrite !Z.add_0_r, app_nil_r.
  - cbn [log_lines map for_each fst snd]. unfold scan_line at 1.
    cbn [snd Py.lower bind c_security c_errors c_thr_vals].
    fold (log_lines rest). rewrite IH.
    cbn [c_security c_errors c_thr_vals].
    unfold security_count, error_count. rewrite !count_if_cons.
    rewrite scan_throughput_spec.
    cbn [throughput_values flat_map]. rewrite <- app_assoc.
    f_equal. f_equal.
    + destruct (security_marker (PyStr.lower text)); lia.
    + destruct (error_marker (PyStr.lower text)); lia.
Qed.

Lemma average_none vals : average vals = None <-> vals = [].
Proof. destruct vals; cbn; split; intros H; congruence. Qed.

Lemma throughput_values_nil texts :
  throughput_values texts = [] <->
  Forall (fun t => Regex.search Regex.RE_THROUGHPUT t = None) texts.
Proof.
  induction texts as [|t rest IH]; cbn [throughput_values flat_map].
  - split; auto.
  - fold (throughput_values rest). split.
    + intros H. apply app_eq_nil in H. destruct H as [H1 H2].
      constructor; [|now apply IH].
      apply throughput_of_none. destruct (throughput_of t); [discriminate|reflexivity].
    + intros H. inversion H as [|? ? Ht Hrest]; subst.
      apply throughput_of_none in Ht. rewrite Ht. cbn. now apply IH.
Qed.

Lemma log_lines_length lines : List.length (log_lines lines) = List.length lines.
Proof. apply length_map. Qed.

(** C8 (as the code has it): for every window of lines, the metrics
    computer counts the lines whose lower-cased text has a security marker
    and those whose lower-cased text has a failure marker (error, failed,
    deny, blocked); the throughput values are the ones the pattern
    [Throughput=<number>] finds in the text of the line as it is, not
    lower-cased; and the throughput average is absent exactly when the
    pattern matched in no line of the window. *)
Theorem metrics_of_window (lines : list (Z * string)) :
  let texts := map snd lines in
  let n := Z.of_nat (List.length lines) in
  compute_metrics (log_lines lines) =
  Ok {| total := n;
        log_rate := PyNum.int_truediv n 5;
        security := security_count texts;
        sec_rate := PyNum.int_truediv (security_count texts) 5;
        errors := error_count texts;
        err_rate := PyNum.int_truediv (error_count texts) 5;
        thr_avg := average (throughput_values texts) |}
  /\ (average (throughput_values texts) = None <->
      Forall (fun t => Regex.search Regex.RE_THROUGHPUT t = None) texts).
Proof.
  cbv zeta. split.
  - unfold compute_metrics. rewrite scan_lines, log_lines_length. reflexivity.
  - rewrite average_none. apply throughput_values_nil.
Qed.

(** C10: whenever the throughput pattern matches a line, converting the
    captured group to a float succeeds, so the handler of the conversion's
    failure is never entered and the matched value is appended. *)
Theorem matched_throughput_always_parses (line g : string) :
  Regex.search Regex.RE_THROUGHPUT line = Some g ->
  exists v, PyNum.py_float g = Some v /\
            forall vals, scan_throughput line vals = (vals ++ [v])%list.
Proof.
  intros H. destruct (throughput_of_match line g H) as (v & Hv & Ht).
  exists v. split; [exact Hv|]. intros vals.
  now rewrite scan_throughput_spec, Ht.
Qed.

Lemma matched_throughput_witness :
  exists v, PyNum.py_float "0.10" = Some v /\
            forall vals, scan_throughput "olt1 Throughput=0.10" vals = (vals ++ [v])%list.
Proof.
  apply (matched_throughput_always_parses "olt1 Throughput=0.10" "0.10").
  reflexivity.
Defined.

(** Lower-casing removes every capital T, so the pattern cannot match. *)
Lemma lower_char_not_T c : Ascii.eqb (PyStr.lower_char c) "T" = false.
Proof. by_char c. Qed.

Lemma lowered_never_matches s :
  Regex.search Regex.RE_THROUGHPUT (PyStr.lower s) = None.
Proof.
  induction s as [|c t IH]; [reflexivity|].
  cbn [PyStr.lower]. rewrite search_eq.
  replace (Regex.match_here Regex.RE_THROUGHPUT (String (PyStr.lower_char c) (PyStr.lower t)) None)
    with (@None (option string * string)).
  - exact IH.
  - cbn. now rewrite lower_char_not_T.
Qed.

Lemma throughput_values_lowered_nil texts : throughput_values_lowered texts = [].
Proof.
  unfold throughput_values_lowered. apply throughput_values_nil.
  apply Forall_map. apply Forall_forall. intros t _. apply lowered_never_matches.
Qed.

(** C8, as the specification words it, fails: on this line the code finds
    the throughput 0.10, and the lower-cased text has no match at all. *)
Lemma throughput_read_from_original_text :
  bind (compute_metrics (log_lines [(1762210800000000000, "olt1 Throughput=0.10")]))
       (fun m => Ok (thr_avg m)) = Ok (Some 0.1%float)
  /\ average (throughput_values_lowered ["olt1 Throughput=0.10"]) = None.
Proof. split; reflexivity. Qed.

End MetricsProps.

(* ================================================================= *)
(** ** The line extractor *)

Module ExtractProps.

Import Extract Shape FloatParseProps.


Lemma int_of_digits s :
  all_digits s = true -> s <> "" ->
  Z.of_nat (String.length s) <= PyNum.INT_MAX_STR_DIGITS ->
  exists n, PyNum.int_of_str s = Some n.
Proof.
  intros Hd Hne Hlen.
  destruct (digitpart_digits s "" I Hd Hne 0 0) as [m E].
  rewrite RegexProps.append_nil_r in E.
  unfold PyNum.int_of_str.
  rewrite (strip_numchars s (all_digits_numchars s Hd)).
  destruct s as [|c t]; [congruence|].
  assert (Hc : numchar c = true).
  { cbn in Hd. apply andb_prop in Hd. unfold numchar. now rewrite (proj1 Hd). }
  rewrite (numchar_no_sign c t Hc), E.
  apply Z.leb_le in Hlen. rewrite Z.add_0_l, Hlen. eauto.
Qed.

Lemma timestamp_converts v :
  timestamp_ok v = true -> exists n, Py.int v = Ok n.
Proof.
  destruct v as [| | n | | s | |]; try discriminate; cbn.
  - eauto.
  - intros H. apply andb_prop in H. destruct H as [H Hlen].
    apply andb_prop in H. destruct H as [Hne Hd].
    apply Z.leb_le in Hlen.
    assert (Hne' : s <> "") by (intros ->; discriminate).
    destruct (int_of_digits s Hd Hne' Hlen) as [n E]. rewrite E. eauto.
Qed.



Lemma extract_absent_data d :
  Py.lookup "data" d = None -> extract_lines (PDict d) = Ok [].
Proof. intros H. unfold extract_lines. cbn. rewrite H. reflexivity. Qed.

Lemma extract_absent_result d d' :
  Py.lookup "data" d = Some (PDict d') -> Py.lookup "result" d' = None ->
  extract_lines (PDict d) = Ok [].
Proof. intros H H'. unfold extract_lines. cbn. rewrite H. cbn. rewrite H'. reflexivity. Qed.





End ExtractProps.

(* ================================================================= *)
(** ** The emitter and the scheduler loop *)

Module SchedulerProps.

Import Scoring Emitter Scheduler.
Local Open Scope float_scope.

(** What a call of the emitter does, by outcome of the socket. *)
Lemma send_syslog_sent ts msg :
  send_syslog ts Sent msg =
  ([SocketOpen; SendTo (syslog_line ts msg) SYSLOG_IP SYSLOG_PORT; SocketClose], Ok tt).
Proof. reflexivity. Qed.

Lemma send_syslog_send_fails ts e msg :
  send_syslog ts (SendFails e) msg = ([SocketOpen; SocketClose], Raise e).
Proof. reflexivity. Qed.

Lemma send_syslog_socket_fails ts e msg :
  send_syslog ts (SocketFails e) msg = ([], Raise e).
Proof. reflexivity. Qed.

Lemma try_block_metrics threshold env :
  try_block threshold env =
  match cycle_metrics env with
  | Ok m => after_metrics threshold env m
  | Raise e => ([], Raise e)
  end.
Proof.
  unfold try_block, cycle_metrics, after_metrics, score, reasons.
  destruct (query env) as [data|e]; [|reflexivity].
  cbn. destruct (Extract.extract_lines data) as [ls|e]; [|reflexivity].
  cbn. destruct (Metrics.compute_metrics ls) as [m|e]; [|reflexivity].
  cbn. destruct (simple_score m) as [s r]. reflexivity.
Qed.

Lemma cycle_with_metrics threshold env :
  cycle_with threshold env =
  (Prog.try_except
     match cycle_metrics env with
     | Ok m => after_metrics threshold env m
     | Raise e => ([], Raise e)
     end (handler env) ;;
   Prog.emit (Sleep Config.POLL_SECONDS))%prog.
Proof. unfold cycle_with. rewrite try_block_metrics. reflexivity. Qed.

(** C5: in a cycle whose [try] block completes, an alert is emitted if and
    only if the score is greater than or equal to the threshold: the
    datagrams of the cycle are the one alert line when it is, and none when
    it is not. With the threshold 0.10 every nonzero score reaches it, and
    with the threshold 1.01 no score does. *)
Theorem alert_iff_score_reaches_threshold :
  (forall threshold env m,
      cycle_metrics env = Ok m ->
      snd (try_block threshold env) = Ok tt ->
      datagrams (fst (cycle_with threshold env)) =
      if threshold <=? score m
      then [syslog_line (alert_ts env) (alert_message m (score m) (reasons m))]
      else [])
  /\ (forall m, score m <> 0 -> (0.10 <=? score m) = true)
  /\ (forall m, (1.01 <=? score m) = false).
Proof.
  split; [|split].
  - intros threshold env m Hm Hok.
    rewrite cycle_with_metrics. rewrite try_block_metrics in Hok.
    rewrite Hm in *. unfold after_metrics in *.
    destruct (threshold <=? score m).
    + destruct (alert_send env); cbn in Hok; try discriminate. reflexivity.
    + reflexivity.
  - intros m. ScoringProps.rule_cases m; intros H; try reflexivity;
      exfalso; apply H; reflexivity.
  - intros m. ScoringProps.rule_cases m; reflexivity.
Qed.

Lemma low_throughput_cycle_metrics a e :
  cycle_metrics (env_of (Ok low_throughput_response) a e) = Ok low_throughput_metrics.
Proof. reflexivity. Qed.

(** A cycle whose fetch, extraction or metrics raise, with a working socket. *)
Lemma failed_cycle_sends_error_alert threshold env e :
  cycle_metrics env = Raise e -> error_send env = Sent ->
  cycle_with threshold env =
  ([Print [Txt "ERROR: "; Txt (exn_msg e)];
    SocketOpen;
    SendTo (syslog_line (error_ts env) (error_message e)) SYSLOG_IP SYSLOG_PORT;
    SocketClose;
    Sleep Config.POLL_SECONDS], Ok tt).
Proof.
  intros Hm Hs. rewrite cycle_with_metrics, Hm.
  unfold Prog.try_except, handler. cbn [snd fst]. rewrite Hs. reflexivity.
Qed.

(** ... and with a socket that fails: the exception of the handler's own
    [send_syslog] leaves the cycle. *)
Lemma failed_cycle_with_dead_socket threshold env e e' :
  cycle_metrics env = Raise e -> error_send env = SendFails e' ->
  cycle_with threshold env =
  ([Print [Txt "ERROR: "; Txt (exn_msg e)]; SocketOpen; SocketClose], Raise e').
Proof.
  intros Hm Hs. rewrite cycle_with_metrics, Hm.
  unfold Prog.try_except, handler. cbn [snd fst]. rewrite Hs. reflexivity.
Qed.

(** C3, on the code: the query times out and [sendto] fails too. The
    handler's own [send_syslog] raises, nothing catches it, and the loop
    ends in the first cycle: no datagram, no sleep, no second cycle. *)
Theorem loop_ends_when_error_alert_cannot_be_sent :
  snd (main [env_timeout_no_network; env_quiet]) = Terminated network_unreachable
  /\ datagrams (fst (main [env_timeout_no_network; env_quiet])) = []
  /\ sleeps (fst (main [env_timeout_no_network; env_quiet])) = [].
Proof. repeat split. Qed.

(** C4 (as the code has it): the emitter does not swallow a failure of
    [sendto]: it closes the socket and raises it again. When that happens
    for the alert of the [try] block, the cycle's handler catches it like
    any other failure of the cycle, logs it and sends the medium-severity
    error alert; when that second datagram goes out the cycle sleeps and
    the loop goes on. *)
Theorem transmission_failure_is_a_cycle_failure :
  (forall ts e msg,
      send_syslog ts (SendFails e) msg = ([SocketOpen; SocketClose], Raise e))
  /\ (forall threshold env m e,
         cycle_metrics env = Ok m ->
         (threshold <=? score m) = true ->
         alert_send env = SendFails e ->
         error_send env = Sent ->
         cycle_with threshold env =
         ([Print (status_line (status_ts env) m (score m) (reasons m));
           SocketOpen; SocketClose;
           Print [Txt "ERROR: "; Txt (exn_msg e)];
           SocketOpen;
           SendTo (syslog_line (error_ts env) (error_message e))
                  SYSLOG_IP SYSLOG_PORT;
           SocketClose;
           Sleep Config.POLL_SECONDS], Ok tt)).
Proof.
  split.
  - reflexivity.
  - intros threshold env m e Hm Hth Ha He.
    rewrite cycle_with_metrics, Hm. unfold after_metrics. rewrite Hth, Ha.
    unfold Prog.try_except, handler. cbn [snd fst Prog.bind send_syslog].
    cbn. rewrite He. reflexivity.
Qed.

Lemma transmission_failure_witness :
  cycle_with Config.SCORE_THRESHOLD env_alert_lost =
  ([Print (status_line "2025-11-03T23:00:00.000000" low_throughput_metrics
                       (score low_throughput_metrics) (reasons low_throughput_metrics));
    SocketOpen; SocketClose;
    Print [Txt "ERROR: "; Txt "[Errno 101] Network is unreachable"];
    SocketOpen;
    SendTo (syslog_line "Nov 03 23:00:00" (error_message network_unreachable))
           SYSLOG_IP SYSLOG_PORT;
    SocketClose;
    Sleep 60], Ok tt).
Proof.
  exact (proj2 transmission_failure_is_a_cycle_failure
               Config.SCORE_THRESHOLD env_alert_lost low_throughput_metrics
               network_unreachable eq_refl eq_refl eq_refl eq_refl).
Defined.

(** C4, as stated, fails: the failure of [sendto] leaves the emitter and
    ends the [try] block of the cycle. *)
Lemma emitter_lets_transmission_failure_out :
  send_syslog "Nov 03 23:00:00" (SendFails network_unreachable)
              (alert_message low_throughput_metrics
                             (score low_throughput_metrics)
                             (reasons low_throughput_metrics))
  = ([SocketOpen; SocketClose], Raise network_unreachable)
  /\ snd (try_block Config.SCORE_THRESHOLD env_alert_lost) = Raise network_unreachable.
Proof. split; reflexivity. Qed.

Lemma alert_iff_witness :
  datagrams (fst (cycle_with Config.SCORE_THRESHOLD env_low_throughput)) =
  [syslog_line "Nov 03 23:00:00"
               (alert_message low_throughput_metrics (score low_throughput_metrics)
                              (reasons low_throughput_metrics))]
  /\ datagrams (fst (cycle_with 1.01 env_low_throughput)) = []
  /\ (0.10 <=? score low_throughput_metrics) = true.
Proof.
  split; [|split].
  - exact (proj1 alert_iff_score_reaches_threshold
                 Config.SCORE_THRESHOLD env_low_throughput low_throughput_metrics
                 eq_refl eq_refl).
  - exact (proj1 alert_iff_score_reaches_threshold
                 1.01 env_low_throughput low_throughput_metrics eq_refl eq_refl).
  - apply (proj1 (proj2 alert_iff_score_reaches_threshold)).
    intros H. discriminate (f_equal (fun x => x <? 0.1) H).
Defined.

End SchedulerProps.

(* ================================================================= *)
(** ** The scenarios of the specification, run on the model *)

Module Scenarios.

Import Scoring Scheduler.
Local Open Scope float_scope.

(** 100 lines in 5 minutes, none matching a heuristic: a log rate of 20,
    rule 1 only. *)
Example hundred_plain_lines :
  bind (Metrics.compute_metrics (Metrics.log_lines (repeat (0%Z, "olt1 link up") 100)))
       (fun m => Ok (log_rate m, simple_score m))
  = Ok (20, (0.35, ["high_log_rate"])).
Proof. vm_compute. reflexivity. Qed.

(** 30 of 100 lines contain [auth]: a security rate of 6, rules 1 and 2. *)
Example thirty_auth_lines :
  bind (Metrics.compute_metrics
          (Metrics.log_lines (repeat (0%Z, "sshd AUTH rejected") 30 ++
                              repeat (0%Z, "olt1 link up") 70)))
       (fun m => Ok (sec_rate m, simple_score m))
  = Ok (6, (0.7, ["high_log_rate"; "high_security_rate"])).
Proof. vm_compute. reflexivity. Qed.

(** Three lines with [Throughput=0.10]: rule 4 only. *)
Example three_slow_lines :
  bind (Metrics.compute_metrics (Metrics.log_lines (repeat (0%Z, "olt1 Throughput=0.10") 3)))
       (fun m => Ok (thr_below (thr_avg m) 0.25, simple_score m))
  = Ok (true, (0.3, ["low_throughput"])).
Proof. vm_compute. reflexivity. Qed.

(** All four rules at once: the sum 1.2 is clamped to 1.0. *)
Example all_rules_fire :
  simple_score (Metrics 500 100 50 10 20 4 (Some 0.1))
  = (1, ["high_log_rate"; "high_security_rate"; "high_error_rate";
         "low_throughput"]).
Proof. vm_compute. reflexivity. Qed.

(** The query times out and the socket works: one datagram, one sleep, and
    the loop is still running after the next cycle. *)
Example timeout_then_quiet :
  snd (main [env_timeout; env_quiet]) = Running
  /\ datagrams (fst (main [env_timeout; env_quiet]))
     = [Emitter.syslog_line "Nov 03 23:00:00" (error_message read_timeout)]
  /\ sleeps (fst (main [env_timeout; env_quiet])) = [60%Z; 60%Z].
Proof. vm_compute. repeat split. Qed.

End Scenarios.

(* ================================================================= *)
(** ** More on the scoring engine *)

Module ScoringMore.

Import Scoring ScoringProps.
Local Open Scope float_scope.

(** X1: the score reaches 0.75, the threshold the configuration names for
    production, exactly when at least three of the four rules fired. *)
Theorem production_threshold_needs_three_rules (m : metrics) :
  (0.75 <=? score m) = true <-> (3 <= List.length (reasons m))%nat.
Proof.
  rule_cases m; split; intros H; vm_compute in H |- *;
    try reflexivity; try discriminate; try lia; repeat constructor.
Qed.

(** Which tag is in the reasons: the one of each rule that fired. *)
Lemma reason_iff_rule (m : metrics) :
  (In "high_log_rate" (reasons m) <-> ge_int (log_rate m) 20 = true) /\
  (In "high_security_rate" (reasons m) <-> ge_int (sec_rate m) 5 = true) /\
  (In "high_error_rate" (reasons m) <-> ge_int (err_rate m) 2 = true) /\
  (In "low_throughput" (reasons m) <-> thr_below (thr_avg m) 0.25 = true).
Proof.
  unfold reasons, simple_score, bump.
  destruct (ge_int (log_rate m) 20), (ge_int (sec_rate m) 5),
    (ge_int (err_rate m) 2), (thr_below (thr_avg m) 0.25);
    cbn [fst snd app In];
    repeat split; intros H; try reflexivity; try discriminate; auto;
    repeat match goal with
           | H : _ \/ _ |- _ => destruct H
           | H : False |- _ => destruct H
           | H : _ = _ |- _ => discriminate H
           end.
Qed.

(** X2: the reasons never repeat a tag and hold nothing but the four rule
    tags. *)
Theorem reasons_are_distinct_tags (m : metrics) :
  NoDup (reasons m) /\
  incl (reasons m) ["high_log_rate"; "high_security_rate"; "high_error_rate";
                    "low_throughput"].
Proof.
  rule_cases m; cbn [app]; split;
    try (repeat constructor; cbn; intuition discriminate);
    intros x Hx; cbn in *; intuition.
Qed.

Lemma rate_rule_check :
  Trace.rate_rule_agrees 20 100 5000 = true /\
  Trace.rate_rule_agrees 5 25 5000 = true /\
  Trace.rate_rule_agrees 2 10 5000 = true.
Proof. vm_compute. auto. Qed.

Lemma rate_rule_sound cut least bound n :
  Trace.rate_rule_agrees cut least bound = true ->
  (0 <= n <= Z.of_nat bound)%Z ->
  ge_int (PyNum.int_truediv n (Z.max Config.WINDOW_MINUTES 1)) cut = (least <=? n)%Z.
Proof.
  unfold Trace.rate_rule_agrees. intros H Hn.
  rewrite forallb_forall in H.
  specialize (H (Z.to_nat n)).
  rewrite Z2Nat.id in H by lia.
  apply Bool.eqb_prop. apply H. apply in_seq. lia.
Qed.

End ScoringMore.

(* ================================================================= *)
(** ** More on the metrics computer *)

Module MetricsMore.

Import Metrics MetricsSpec MetricsProps.

Lemma count_if_bounds {A : Type} (f : A -> bool) (xs : list A) :
  0 <= count_if f xs <= Z.of_nat (List.length xs).
Proof.
  unfold count_if. pose proof (filter_length_le f xs). lia.
Qed.

(** The snapshot of a window of texts. *)
Lemma compute_metrics_texts (lines : list (Z * string)) :
  compute_metrics (log_lines lines) =
  Ok {| total := Z.of_nat (List.length lines);
        log_rate := PyNum.int_truediv (Z.of_nat (List.length lines))
                                      (Z.max Config.WINDOW_MINUTES 1);
        security := security_count (map snd lines);
        sec_rate := PyNum.int_truediv (security_count (map snd lines))
                                      (Z.max Config.WINDOW_MINUTES 1);
        errors := error_count (map snd lines);
        err_rate := PyNum.int_truediv (error_count (map snd lines))
                                      (Z.max Config.WINDOW_MINUTES 1);
        thr_avg := average (throughput_values (map snd lines)) |}.
Proof.
  unfold compute_metrics. rewrite scan_lines, log_lines_length. reflexivity.
Qed.

(** A loop that ends normally ran over texts only. *)
Lemma scan_ok_texts (lines : list (Z * pyval)) : forall c c',
  for_each scan_line lines c = Ok c' ->
  exists texts, lines = log_lines texts.
Proof.
  induction lines as [|[ts v] rest IH]; intros c c' H.
  - exists []. reflexivity.
  - cbn [for_each] in H. unfold scan_line at 1 in H. cbn [snd] in H.
    destruct v as [| | | | s | |]; try discriminate H.
    cbn [Py.lower bind] in H.
    destruct (IH _ _ H) as [texts ->].
    exists ((ts, s) :: texts). reflexivity.
Qed.

(** X4: whenever [compute_metrics] returns, [total] is the number of lines
    and the security and error counts lie between 0 and [total]. *)
Theorem counts_within_total (lines : list (Z * pyval)) (m : metrics) :
  compute_metrics lines = Ok m ->
  total m = Z.of_nat (List.length lines) /\
  0 <= security m <= total m /\
  0 <= errors m <= total m.
Proof.
  intros H.
  assert (T : exists texts, lines = log_lines texts).
  { unfold compute_metrics in H.
    destruct (for_each scan_line lines (Counters 0 0 [])) as [c|e] eqn:E;
      [|discriminate H].
    exact (scan_ok_texts lines _ _ E). }
  destruct T as [texts ->].
  rewrite compute_metrics_texts in H. injection H as <-.
  cbn [total security errors]. rewrite log_lines_length.
  pose proof (count_if_bounds (fun t => security_marker (PyStr.lower t)) (map snd texts)) as B1.
  pose proof (count_if_bounds (fun t => error_marker (PyStr.lower t)) (map snd texts)) as B2.
  rewrite length_map in B1, B2. unfold security_count, error_count. lia.
Qed.

Lemma counts_within_total_witness :
  total Scheduler.low_throughput_metrics = 1 /\
  0 <= security Scheduler.low_throughput_metrics <= total Scheduler.low_throughput_metrics /\
  0 <= errors Scheduler.low_throughput_metrics <= total Scheduler.low_throughput_metrics.
Proof.
  exact (counts_within_total
           (log_lines [(1762210800000000000, "olt1 Throughput=0.10")])
           Scheduler.low_throughput_metrics eq_refl).
Defined.

(** X5: a line whose text is not a string makes [compute_metrics] raise
    [AttributeError] for its [lower], whatever follows it, when the lines
    before it are strings. *)
Theorem first_non_text_line_raises (texts : list (Z * string)) (ts : Z)
        (v : pyval) (rest : list (Z * pyval)) :
  (forall s, v <> PStr s) ->
  compute_metrics (log_lines texts ++ (ts, v) :: rest) =
  Raise (Py.no_attribute v "lower").
Proof.
  intros Hv. unfold compute_metrics.
  assert (L : forall c, for_each scan_line (log_lines texts ++ (ts, v) :: rest) c
                        = Raise (Py.no_attribute v "lower")).
  { induction texts as [|[t s] more IH]; intros c.
    - cbn [log_lines map app for_each]. unfold scan_line. cbn [snd].
      destruct v; try reflexivity. destruct (Hv s). reflexivity.
    - cbn [log_lines map app for_each]. unfold scan_line at 1.
      cbn [snd fst Py.lower bind]. apply IH. }
  rewrite L. reflexivity.
Qed.

Lemma first_non_text_line_witness :
  compute_metrics (log_lines [(1, "olt1 link up")] ++ (2, PInt 7) :: []) =
  Raise (Exn AttributeError "'int' object has no attribute 'lower'").
Proof.
  apply (first_non_text_line_raises [(1, "olt1 link up")] 2 (PInt 7) []).
  intros s H. discriminate H.
Defined.

(** X3: for a window of at most 5000 lines (the [limit] of the query), the
    three rate rules read on the counts: high_log_rate is a reason exactly
    when the window has at least 100 lines, high_security_rate exactly when
    at least 25 lines have a security marker, high_error_rate exactly when
    at least 10 lines have a failure marker. *)
Theorem rules_fire_on_counts (lines : list (Z * string)) :
  (List.length lines <= 5000)%nat ->
  exists m,
    compute_metrics (log_lines lines) = Ok m /\
    (In "high_log_rate" (Scoring.reasons m) <-> 100 <= Z.of_nat (List.length lines)) /\
    (In "high_security_rate" (Scoring.reasons m) <-> 25 <= security_count (map snd lines)) /\
    (In "high_error_rate" (Scoring.reasons m) <-> 10 <= error_count (map snd lines)).
Proof.
  intros Hn. eexists. split; [apply compute_metrics_texts|].
  pose proof (count_if_bounds (fun t => security_marker (PyStr.lower t)) (map snd lines)) as B1.
  pose proof (count_if_bounds (fun t => error_marker (PyStr.lower t)) (map snd lines)) as B2.
  rewrite length_map in B1, B2.
  destruct ScoringMore.rate_rule_check as (R1 & R2 & R3).
  match goal with
  | |- context [Scoring.reasons ?m] =>
      destruct (ScoringMore.reason_iff_rule m) as (I1 & I2 & I3 & _)
  end.
  cbn [log_rate sec_rate err_rate] in I1, I2, I3.
  rewrite (ScoringMore.rate_rule_sound 20 100 5000) in I1 by (auto; lia).
  rewrite (ScoringMore.rate_rule_sound 5 25 5000) in I2
    by (auto; unfold security_count; lia).
  rewrite (ScoringMore.rate_rule_sound 2 10 5000) in I3
    by (auto; unfold error_count; lia).
  rewrite Z.leb_le in I1, I2, I3. auto.
Qed.

Lemma rules_fire_on_counts_witness :
  exists m,
    compute_metrics (log_lines (repeat (0, "sshd auth failed") 100)) = Ok m /\
    (In "high_log_rate" (Scoring.reasons m) <->
     100 <= Z.of_nat (List.length (repeat (0, "sshd auth failed") 100))) /\
    (In "high_security_rate" (Scoring.reasons m) <->
     25 <= security_count (map snd (repeat (0, "sshd auth failed") 100))) /\
    (In "high_error_rate" (Scoring.reasons m) <->
     10 <= error_count (map snd (repeat (0, "sshd auth failed") 100))).
Proof.
  apply (rules_fire_on_counts (repeat (0, "sshd auth failed") 100)).
  rewrite repeat_length. lia.
Defined.

End MetricsMore.

Module MarkerProps.

Import PyStr Metrics.

Lemma prefix_iff (p s : string) :
  prefix p s = true <-> exists b, s = p ++ b.
Proof.
  revert s. induction p as [|c p IH]; intros s.
  - split; [intros _; exists s; reflexivity | destruct s; reflexivity].
  - destruct s as [|d s]; cbn.
    + split; [discriminate|]. intros [b H]. discriminate H.
    + destruct (ascii_dec c d) as [->|Hne].
      * rewrite IH. split; intros [b H]; exists b; congruence.
      * split; [discriminate|]. intros [b H]. congruence.
Qed.

(** [sub in s] is true exactly when [sub] occurs in [s]. *)
Lemma contains_iff (sub s : string) :
  contains sub s = true <-> exists a b, s = a ++ sub ++ b.
Proof.
  induction s as [|c s IH]; cbn [contains].
  - rewrite orb_false_r, prefix_iff. split.
    + intros [b H]. exists "", b. exact H.
    + intros (a & b & H). destruct a; [eauto|discriminate H].
  - rewrite orb_true_iff, prefix_iff, IH. split.
    + intros [[b H] | (a & b & H)].
      * exists "", b. exact H.
      * exists (String c a), b. cbn. now rewrite H.
    + intros (a & b & H). destruct a as [|d a].
      * left. eauto.
      * right. cbn in H. injection H as _ H. eauto.
Qed.

Lemma lower_app (a b : string) : lower (a ++ b) = lower a ++ lower b.
Proof. induction a as [|c a IH]; cbn; [reflexivity|]. now rewrite IH. Qed.

(** A split of the lower-cased text is a split of the text. *)
Lemma lower_split (t x y : string) :
  lower t = x ++ y -> exists t1 t2, t = t1 ++ t2 /\ lower t1 = x /\ lower t2 = y.
Proof.
  revert t. induction x as [|c x IH]; intros t H.
  - exists "", t. auto.
  - destruct t as [|d t]; [discriminate H|].
    cbn in H. injection H as Hc H.
    destruct (IH t H) as (t1 & t2 & -> & H1 & H2).
    exists (String d t1), t2. cbn. rewrite Hc, H1. auto.
Qed.

Lemma lowered_contains (sub t : string) :
  contains sub (lower t) = true <->
  exists a w b, t = a ++ w ++ b /\ lower w = sub.
Proof.
  rewrite contains_iff. split.
  - intros (x & y & H).
    destruct (lower_split t x (sub ++ y) H) as (a & r & -> & _ & Hr).
    destruct (lower_split r sub y Hr) as (w & b & -> & Hw & _).
    eauto.
  - intros (a & w & b & -> & Hw).
    exists (lower a), (lower b). now rewrite !lower_app, Hw.
Qed.

(** X6: the two substring heuristics ignore case: a text counts as a
    security line exactly when some part of it lower-cases to [security:] or
    [auth], and as an error line exactly when some part of it lower-cases to
    [error], [failed], [deny] or [blocked]. *)
Theorem markers_ignore_case (t : string) :
  (security_marker (lower t) = true <->
   exists a w b, t = a ++ w ++ b /\ (lower w = "security:" \/ lower w = "auth"))
  /\
  (error_marker (lower t) = true <->
   exists a w b, t = a ++ w ++ b /\
                 (lower w = "error" \/ lower w = "failed" \/
                  lower w = "deny" \/ lower w = "blocked")).
Proof.
  unfold security_marker, error_marker.
  rewrite !orb_true_iff, !lowered_contains. split; split.
  - intros [(a & w & b & H & Hw) | (a & w & b & H & Hw)]; exists a, w, b; auto.
  - intros (a & w & b & H & [Hw | Hw]); [left | right]; eauto.
  - intros [[[(a & w & b & H & Hw) | (a & w & b & H & Hw)]
            | (a & w & b & H & Hw)] | (a & w & b & H & Hw)];
      exists a, w, b; auto.
  - intros (a & w & b & H & [Hw | [Hw | [Hw | Hw]]]); eauto 10.
Qed.

Lemma lower_char_idempotent c : lower_char (lower_char c) = lower_char c.
Proof. destruct c as [[] [] [] [] [] [] [] []]; reflexivity. Qed.

Lemma lower_idempotent s : lower (lower s) = lower s.
Proof.
  induction s as [|c s IH]; cbn; [reflexivity|].
  now rewrite lower_char_idempotent, IH.
Qed.

End MarkerProps.

(* ================================================================= *)
(** ** More on the line extractor and the LogStore client *)

Module ExtractMore.

Import Extract Shape Trace ExtractProps.

Lemma add_entry_line entry out :
  entry_ok entry = true ->
  exists l, add_entry out entry = Ok (out ++ [l])%list /\ line_of_entry l entry.
Proof.
  destruct entry as [| | | | | l |]; try discriminate.
  destruct l as [|ts [|line [|]]]; try discriminate.
  cbn. intros H. destruct (timestamp_converts ts H) as [n E].
  exists (n, line). unfold add_entry. cbn. rewrite E. cbn.
  split; [reflexivity|]. exists ts. auto.
Qed.

Lemma add_entries_lines es : forallb entry_ok es = true ->
  forall out, exists ls,
    for_each add_entry es out = Ok (out ++ ls)%list /\ Forall2 line_of_entry ls es.
Proof.
  induction es as [|e es IH]; intros H out.
  - exists []. cbn. rewrite app_nil_r. auto.
  - cbn in H. apply andb_prop in H. destruct H as [He Hes].
    destruct (add_entry_line e out He) as (l & E & Hl).
    destruct (IH Hes (out ++ [l])%list) as (ls & E' & Hls).
    exists (l :: ls). cbn [for_each]. rewrite E. cbn [bind]. rewrite E'.
    rewrite <- app_assoc. auto.
Qed.

Lemma add_stream_lines stream out :
  stream_ok stream = true ->
  exists ls, add_stream out stream = Ok (out ++ ls)%list /\
             Forall2 line_of_entry ls (items (field "values" (PList []) stream)).
Proof.
  destruct stream as [| | | | | |d]; try discriminate.
  unfold stream_ok, field_ok, add_stream, field. cbn [Py.get bind].
  destruct (Py.lookup "values" d) as [vs|].
  - destruct vs as [| | | | |es|]; try discriminate. cbn.
    intros H. apply add_entries_lines. exact H.
  - intros _. exists []. cbn. rewrite app_nil_r. auto.
Qed.

Lemma add_streams_lines ss : forallb stream_ok ss = true ->
  forall out, exists ls,
    for_each add_stream ss out = Ok (out ++ ls)%list /\
    Forall2 line_of_entry ls
            (flat_map (fun s => items (field "values" (PList []) s)) ss).
Proof.
  induction ss as [|s ss IH]; intros H out.
  - exists []. cbn. rewrite app_nil_r. auto.
  - cbn in H. apply andb_prop in H. destruct H as [Hs Hss].
    destruct (add_stream_lines s out Hs) as (l1 & E & H1).
    destruct (IH Hss (out ++ l1)%list) as (l2 & E' & H2).
    exists (l1 ++ l2)%list. cbn [for_each flat_map]. rewrite E. cbn [bind].
    rewrite E', <- app_assoc. split; [reflexivity|].
    apply Forall2_app; assumption.
Qed.

(** X7: on a response of the query interface's shape, [extract_lines]
    returns one line per entry of every stream, in the order of the
    response, each with the text of its entry unchanged and the integer of
    its timestamp. *)
Theorem extraction_keeps_every_entry_in_order (v : pyval) :
  response_ok v = true ->
  exists ls, extract_lines v = Ok ls /\ Forall2 line_of_entry ls (entries v).
Proof.
  destruct v as [| | | | | |d]; try discriminate.
  unfold response_ok, field_ok at 1, entries, field at 3.
  destruct (Py.lookup "data" d) as [data|] eqn:Hdata.
  - destruct data as [| | | | | |d']; try discriminate.
    unfold data_ok, field_ok, field at 2.
    destruct (Py.lookup "result" d') as [res|] eqn:Hres.
    + destruct res as [| | | | |ss|]; try discriminate. cbn [list_ok items].
      intros H. unfold extract_lines. cbn. rewrite Hdata. cbn. rewrite Hres. cbn.
      destruct (add_streams_lines ss H []) as (ls & E & Hls).
      exists ls. auto.
    + intros _. exists []. split; [now apply (extract_absent_result d d')|].
      cbn. constructor.
  - intros _. exists []. split; [now apply extract_absent_data|].
    cbn. constructor.
Qed.

Lemma extraction_keeps_order_witness :
  exists ls, extract_lines Scheduler.low_throughput_response = Ok ls /\
             Forall2 line_of_entry ls (entries Scheduler.low_throughput_response).
Proof.
  exact (extraction_keeps_every_entry_in_order Scheduler.low_throughput_response eq_refl).
Defined.

End ExtractMore.

Module LokiProps.

Import LokiClient.
Local Open Scope float_scope.

(** A float that is at least 2^60 has an exponent of at least 8. *)
Lemma trunc_large (x : float) (n : Z) :
  (1152921504606846976 <=? x) = true -> PyNum.trunc x = Some n -> (256 | n)%Z.
Proof.
  rewrite leb_spec. unfold PyNum.trunc.
  replace (Prim2SF 1152921504606846976) with (S754_finite false 4503599627370496 8)
    by (vm_compute; reflexivity).
  destruct (Prim2SF x) as [s|s| |s m e].
  - intros H. destruct s; discriminate H.
  - intros _ H. discriminate H.
  - intros H. discriminate H.
  - destruct s; [intros H; discriminate H|].
    unfold SFleb, SFcompare. intros Hle H.
    assert (He : (8 <= e)%Z).
    { destruct (Z.compare_spec 8 e); [lia|lia|discriminate Hle]. }
    assert (E : (0 <=? e)%Z = true) by (apply Z.leb_le; lia).
    cbv beta iota zeta in H. rewrite E in H.
    assert (Hn : n = (Z.pos m * 2 ^ e)%Z) by congruence.
    rewrite Hn. replace e with (8 + (e - 8))%Z by lia.
    rewrite Z.pow_add_r by lia.
    exists (Zpos m * 2 ^ (e - 8))%Z. change (2 ^ 8)%Z with 256%Z. ring.
Qed.

(** X8: [to_ns] goes through a float, so from 2^60 nanoseconds on (July
    2006) its result is always a multiple of 256: the bounds of the query
    never have nanosecond resolution. *)
Theorem to_ns_is_a_multiple_of_256 (timestamp : float) (n : Z) :
  (1152921504606846976 <=? timestamp * 1e9) = true ->
  to_ns timestamp = Ok n ->
  (256 | n)%Z.
Proof.
  intros Hx H. unfold to_ns, Py.int in H.
  destruct (PyNum.trunc (timestamp * 1e9)) as [k|] eqn:E.
  - injection H as <-. exact (trunc_large _ _ Hx E).
  - destruct (is_nan (timestamp * 1e9)); discriminate H.
Qed.

Lemma to_ns_witness :
  to_ns 1762210800.5 = Ok 1762210800500000000%Z /\ (256 | 1762210800500000000)%Z.
Proof.
  split; [reflexivity|].
  exact (to_ns_is_a_multiple_of_256 1762210800.5 1762210800500000000 eq_refl eq_refl).
Defined.

End LokiProps.

(* ================================================================= *)
(** ** More on the scheduler loop *)

Module LoopProps.

Import Scoring Emitter Scheduler Trace SchedulerProps.
Local Open Scope float_scope.

Lemma opens_app a b : opens (a ++ b) = (opens a + opens b)%nat.
Proof. unfold opens. now rewrite filter_app, length_app. Qed.

Lemma closes_app a b : closes (a ++ b) = (closes a + closes b)%nat.
Proof. unfold closes. now rewrite filter_app, length_app. Qed.

Lemma datagrams_app a b : datagrams (a ++ b) = (datagrams a ++ datagrams b)%list.
Proof. apply flat_map_app. Qed.

Lemma sleeps_app a b : sleeps (a ++ b) = (sleeps a ++ sleeps b)%list.
Proof. apply flat_map_app. Qed.

(** One turn of the loop, whatever the world does. *)
Lemma cycle_facts threshold env :
  opens (fst (cycle_with threshold env)) = closes (fst (cycle_with threshold env))
  /\ (List.length (datagrams (fst (cycle_with threshold env))) <= 1)%nat
  /\ (snd (cycle_with threshold env) = Ok tt ->
      sleeps (fst (cycle_with threshold env)) = [Config.POLL_SECONDS])
  /\ (snd (cycle_with threshold env) = Ok tt <->
      snd (try_block threshold env) = Ok tt \/ error_send env = Sent).
Proof.
  rewrite cycle_with_metrics, try_block_metrics.
  unfold Prog.try_except, handler, after_metrics.
  destruct (cycle_metrics env) as [m|e].
  - destruct (threshold <=? score m);
      destruct (alert_send env); destruct (error_send env); cbn;
      repeat split; try reflexivity; try lia; auto;
      try (intros H; discriminate H);
      try (intros [H|H]; discriminate H).
  - destruct (error_send env); cbn;
      repeat split; try reflexivity; try lia; auto;
      try (intros H; discriminate H);
      try (intros [H|H]; discriminate H).
Qed.

Lemma loop_with_cons threshold env rest :
  loop_with threshold (env :: rest) =
  match snd (cycle_with threshold env) with
  | Ok _ => ((fst (cycle_with threshold env) ++ fst (loop_with threshold rest))%list,
             snd (loop_with threshold rest))
  | Raise e => (fst (cycle_with threshold env), Terminated e)
  end.
Proof.
  cbn [loop_with]. destruct (cycle_with threshold env) as [evs [u|e]]; cbn [fst snd].
  - destruct (loop_with threshold rest). reflexivity.
  - reflexivity.
Qed.

(** X9: after any number of cycles the loop is still running exactly when,
    in each of them, the [try] block completed or the handler's error alert
    could be sent. *)
Theorem loop_runs_while_error_alerts_go_out (threshold : float)
        (envs : list cycle_env) :
  snd (loop_with threshold envs) = Running <->
  Forall (fun env => snd (try_block threshold env) = Ok tt \/ error_send env = Sent)
         envs.
Proof.
  induction envs as [|env rest IH].
  - cbn. split; auto.
  - rewrite loop_with_cons.
    destruct (cycle_facts threshold env) as (_ & _ & _ & Hok).
    destruct (snd (cycle_with threshold env)) as [[]|e]; cbn [snd].
    + rewrite IH. split.
      * intros H. constructor; [apply Hok; reflexivity|exact H].
      * intros H. inversion H; assumption.
    + split; [discriminate|].
      intros H. inversion H as [|? ? Hx _]; subst.
      apply Hok in Hx. discriminate Hx.
Qed.

(** X10: whatever the world does, the loop closes every socket it opens
    (also in the cycle that ends it), sends at most one datagram per cycle,
    and, while it runs, sleeps the poll interval once per cycle. *)
Theorem loop_trace_invariants (threshold : float) (envs : list cycle_env) :
  opens (fst (loop_with threshold envs)) = closes (fst (loop_with threshold envs))
  /\ (List.length (datagrams (fst (loop_with threshold envs))) <= List.length envs)%nat
  /\ (snd (loop_with threshold envs) = Running ->
      sleeps (fst (loop_with threshold envs))
      = repeat Config.POLL_SECONDS (List.length envs)).
Proof.
  induction envs as [|env rest (IH1 & IH2 & IH3)].
  - cbn. auto.
  - rewrite loop_with_cons.
    destruct (cycle_facts threshold env) as (H1 & H2 & H3 & _).
    destruct (snd (cycle_with threshold env)) as [[]|e]; cbn [fst snd List.length].
    + rewrite opens_app, closes_app, datagrams_app, sleeps_app, length_app.
      repeat split; try lia.
      intros HR. rewrite (H3 eq_refl), (IH3 HR). reflexivity.
    + repeat split; try lia; try assumption. discriminate.
Qed.

Lemma loop_trace_witness :
  sleeps (fst (loop_with Config.SCORE_THRESHOLD [env_timeout; env_quiet]))
  = repeat Config.POLL_SECONDS 2.
Proof.
  exact (proj2 (proj2 (loop_trace_invariants Config.SCORE_THRESHOLD
                                             [env_timeout; env_quiet])) eq_refl).
Defined.

Import LokiClient.

(** X11: when the backend answers the query with an error status (400 to
    599), the response body is not looked at, whatever it holds: with a
    working socket the cycle logs the HTTP error, sends the one
    medium-severity alert that quotes it, and sleeps. *)
Theorem error_status_becomes_error_alert
        (threshold : float) (http : params -> http_outcome) (start_ts end_ts : float)
        (clock : string) (alert : send_outcome) (s e status : Z) (text : string)
        (json : result pyval) :
  to_ns start_ts = Ok s -> to_ns end_ts = Ok e ->
  http (Params QUERY s e DEFAULT_LIMIT "BACKWARD") = Answer status text json ->
  (400 <= status < 600)%Z ->
  cycle_with threshold (cycle_env_of http start_ts end_ts clock alert Sent) =
  ([Print [Txt "ERROR: "; Txt text];
    SocketOpen;
    SendTo (syslog_line clock (error_message (Exn RequestException text)))
           SYSLOG_IP SYSLOG_PORT;
    SocketClose;
    Sleep Config.POLL_SECONDS], Ok tt).
Proof.
  intros Hs He Hhttp Hst.
  apply (failed_cycle_sends_error_alert threshold
           (cycle_env_of http start_ts end_ts clock alert Sent)
           (Exn RequestException text)); [|reflexivity].
  unfold cycle_metrics, cycle_env_of, query, loki_query_range.
  rewrite Hs, He. cbn [bind]. rewrite Hhttp. unfold raise_for_status.
  replace ((400 <=? status)%Z && (status <? 600)%Z) with true
    by (symmetry; apply andb_true_intro; split; [apply Z.leb_le|apply Z.ltb_lt]; lia).
  reflexivity.
Qed.

Lemma error_status_witness :
  cycle_with Config.SCORE_THRESHOLD
             (cycle_env_of (fun _ => Answer 503 "503 Server Error"
                                            (Ok low_throughput_response))
                           1762210500 1762210800 "Nov 03 23:00:00" Sent Sent) =
  ([Print [Txt "ERROR: "; Txt "503 Server Error"];
    SocketOpen;
    SendTo (syslog_line "Nov 03 23:00:00"
                        (error_message (Exn RequestException "503 Server Error")))
           SYSLOG_IP SYSLOG_PORT;
    SocketClose;
    Sleep Config.POLL_SECONDS], Ok tt).
Proof.
  apply (error_status_becomes_error_alert
           Config.SCORE_THRESHOLD
           (fun _ => Answer 503 "503 Server Error" (Ok low_throughput_response))
           1762210500 1762210800 "Nov 03 23:00:00" Sent
           1762210500000000000 1762210800000000000 503
           "503 Server Error" (Ok low_throughput_response) eq_refl eq_refl eq_refl).
  lia.
Defined.

End LoopProps.

(* ================================================================= *)
(** ** The CSV tool *)

Module CsvProps.

Import CsvTool.

Lemma usable_value v :
  usable (Some v) = true -> v <> "" /\ v <> "NA" /\ v <> "NaN".
Proof.
  cbn. intros H. apply negb_true_iff in H.
  apply orb_false_elim in H. destruct H as [H H3].
  apply orb_false_elim in H. destruct H as [H1 H2].
  apply String.eqb_neq in H1, H2, H3. auto.
Qed.

(** X12: [pick] returns the value of the first candidate, in the order of
    the candidates, that the row has with a value other than [None], the
    empty string, [NA] and [NaN]; it never returns one of those; and it
    returns [None] exactly when no candidate has such a value. *)
Theorem pick_is_first_usable (r : row) (cs : list string) :
  match pick r cs with
  | Some v =>
      v <> "" /\ v <> "NA" /\ v <> "NaN" /\
      exists pre c post, cs = (pre ++ c :: post)%list /\
                         row_get c r = Some (Some v) /\ none_usable r pre
  | None => none_usable r cs
  end.
Proof.
  induction cs as [|c cs IH]; cbn [pick].
  - constructor.
  - destruct (row_get c r) as [x|] eqn:Hc.
    + destruct (usable x) eqn:Hx.
      * destruct x as [v|]; [|discriminate Hx].
        destruct (usable_value v Hx) as (H1 & H2 & H3).
        repeat split; auto. exists [], c, cs. repeat split; auto. constructor.
      * destruct (pick r cs) as [v|].
        -- destruct IH as (H1 & H2 & H3 & pre & c' & post & -> & Hg & Hpre).
           repeat split; auto. exists (c :: pre), c', post.
           repeat split; auto. constructor; [|exact Hpre].
           intros y Hy. congruence.
        -- constructor; [|exact IH]. intros y Hy. congruence.
    + destruct (pick r cs) as [v|].
      * destruct IH as (H1 & H2 & H3 & pre & c' & post & -> & Hg & Hpre).
        repeat split; auto. exists (c :: pre), c', post.
        repeat split; auto. constructor; [|exact Hpre].
        intros y Hy. congruence.
      * constructor; [|exact IH]. intros y Hy. congruence.
Qed.

Lemma prefix_other_char a c t :
  a <> c -> prefix (String a "") (String c t) = false.
Proof.
  intros H.
  change (match ascii_dec a c with
          | left _ => prefix "" t
          | right _ => false
          end = false).
  destruct (ascii_dec a c); [congruence|reflexivity].
Qed.

Lemma replace_spaces_no_space s : PyStr.contains " " (replace_spaces s) = false.
Proof.
  induction s as [|c s IH]; [reflexivity|].
  cbn [replace_spaces PyStr.contains]. rewrite IH, orb_false_r.
  destruct (Ascii.eqb_spec c " ") as [->|Hc].
  - apply prefix_other_char. discriminate.
  - apply prefix_other_char. congruence.
Qed.

Lemma replace_spaces_nonempty s : s <> "" -> replace_spaces s <> "".
Proof. destruct s; [congruence|discriminate]. Qed.

Lemma py_or_nonempty x d : d <> "" -> py_or x d <> "".
Proof. destruct x as [[|c s]|]; cbn; congruence. Qed.

(** X13: in every line of the CSV tool the host is a non-empty token
    without a space, the event has no space, the severity is non-empty and
    in lower case, and the message is not empty. *)
Theorem row_fields_are_tokens (source_tag : string) (r : row) :
  PyStr.contains " " (row_host r) = false /\
  row_host r <> "" /\
  PyStr.contains " " (row_event source_tag r) = false /\
  PyStr.lower (row_severity r) = row_severity r /\
  row_severity r <> "" /\
  row_message r <> "".
Proof.
  unfold row_host, row_event, row_severity, row_message.
  repeat split.
  - apply replace_spaces_no_space.
  - apply replace_spaces_nonempty, py_or_nonempty. discriminate.
  - apply replace_spaces_no_space.
  - apply MarkerProps.lower_idempotent.
  - assert (H : py_or (pick r SEV_FIELDS) "info" <> "")
      by (apply py_or_nonempty; discriminate).
    destruct (py_or (pick r SEV_FIELDS) "info"); [congruence|discriminate].
  - destruct (pick r MSG_FIELDS) as [[|c t]|]; try discriminate;
      destruct (compact r); discriminate.
Qed.

End CsvProps.

Module CsvLinesProps.

Import CsvTool.

Lemma take_length n s :
  String.length (PyStr.take n s) = Nat.min n (String.length s).
Proof.
  revert s. induction n as [|n IH]; intros s; [reflexivity|].
  destruct s as [|c s]; [reflexivity|]. cbn. now rewrite IH.
Qed.

Section Library.

Variable datetime : Type.
Variable strptime : string -> string -> option datetime.
Variable strftime : datetime -> string -> string.

Lemma try_formats_some v fmts s :
  CsvTool.try_formats datetime strptime strftime v fmts = Some s ->
  exists pre fmt post dt,
    fmts = (pre ++ fmt :: post)%list /\
    Forall (fun f => strptime v f = None) pre /\
    strptime v fmt = Some dt /\ s = strftime dt SYSLOG_FORMAT.
Proof.
  induction fmts as [|f fmts IH]; cbn; [discriminate|].
  destruct (strptime v f) as [dt|] eqn:Hf.
  - intros H. injection H as <-. exists [], f, fmts, dt. auto.
  - intros H. destruct (IH H) as (pre & fmt & post & dt & -> & Hpre & Hp & ->).
    exists (f :: pre), fmt, post, dt. auto.
Qed.

Lemma try_formats_first v pre fmt post dt :
  Forall (fun f => strptime v f = None) pre ->
  strptime v fmt = Some dt ->
  CsvTool.try_formats datetime strptime strftime v (pre ++ fmt :: post) = Some (strftime dt SYSLOG_FORMAT).
Proof.
  intros Hpre Hf. induction Hpre as [|f pre Hnone _ IH]; cbn.
  - now rewrite Hf.
  - now rewrite Hnone.
Qed.

Lemma try_formats_none v fmts :
  Forall (fun f => strptime v f = None) fmts -> CsvTool.try_formats datetime strptime strftime v fmts = None.
Proof.
  intros H. induction H as [|f fmts Hnone _ IH]; cbn; [reflexivity|].
  now rewrite Hnone.
Qed.

(** X14: if the library formats every date in the syslog format in 15
    characters, every result of [normalize_ts] has 15 characters, whatever
    the input. *)
Theorem normalize_ts_has_syslog_width :
  (forall dt, String.length (strftime dt SYSLOG_FORMAT) = 15%nat) ->
  forall now value, String.length (CsvTool.normalize_ts datetime strptime strftime now value) = 15%nat.
Proof.
  intros Hw now value. unfold CsvTool.normalize_ts.
  destruct value as [[|c t]|]; try apply Hw.
  destruct (CsvTool.try_formats datetime strptime strftime (PyStr.strip (String c t)) FORMATS) as [s|] eqn:E.
  - apply try_formats_some in E.
    destruct E as (_ & _ & _ & dt & _ & _ & _ & ->). apply Hw.
  - destruct (15 <=? String.length (PyStr.strip (String c t)))%nat eqn:L;
      cbn [andb]; [|apply Hw].
    destruct (match String.get 3 (PyStr.strip (String c t)) with
              | Some c0 => Ascii.eqb c0 " "
              | None => false
              end); [|apply Hw].
    rewrite take_length. apply Nat.leb_le in L. lia.
Qed.

(** X15: for a non-empty input, the first of the five formats, in their
    order, that parses the stripped input gives the result, whatever the
    later ones would do; when none parses, an input of at least 15
    characters with a space at index 3 is cut to its first 15 characters;
    and otherwise the result is the current time. *)
Theorem normalize_ts_first_format_wins (now : datetime) (value : string) :
  value <> "" ->
  (forall pre fmt post dt,
      FORMATS = (pre ++ fmt :: post)%list ->
      Forall (fun f => strptime (PyStr.strip value) f = None) pre ->
      strptime (PyStr.strip value) fmt = Some dt ->
      CsvTool.normalize_ts datetime strptime strftime now (Some value) = strftime dt SYSLOG_FORMAT)
  /\
  (Forall (fun f => strptime (PyStr.strip value) f = None) FORMATS ->
   (15 <= String.length (PyStr.strip value))%nat ->
   String.get 3 (PyStr.strip value) = Some " "%char ->
   CsvTool.normalize_ts datetime strptime strftime now (Some value) = PyStr.take 15 (PyStr.strip value))
  /\
  (Forall (fun f => strptime (PyStr.strip value) f = None) FORMATS ->
   (String.length (PyStr.strip value) < 15)%nat \/
   String.get 3 (PyStr.strip value) <> Some " "%char ->
   CsvTool.normalize_ts datetime strptime strftime now (Some value) = strftime now SYSLOG_FORMAT).
Proof.
  intros Hne. destruct value as [|c t]; [congruence|].
  unfold CsvTool.normalize_ts. repeat split.
  - intros pre fmt post dt HF Hpre Hf. rewrite HF.
    now rewrite (try_formats_first _ pre fmt post dt Hpre Hf).
  - intros Hnone Hlen Hget. rewrite (try_formats_none _ _ Hnone), Hget.
    apply Nat.leb_le in Hlen. rewrite Hlen. reflexivity.
  - intros Hnone H. rewrite (try_formats_none _ _ Hnone).
    destruct H as [H|H].
    + apply Nat.leb_gt in H. rewrite H. reflexivity.
    + destruct (String.get 3 (PyStr.strip (String c t))) as [d|].
      * destruct (Ascii.eqb_spec d " ") as [->|Hd]; [congruence|].
        now rewrite andb_false_r.
      * now rewrite andb_false_r.
Qed.

Lemma lines_from_unlimited tag rows : forall count,
  CsvTool.lines_from datetime strptime strftime tag 0 count rows = CsvTool.all_lines datetime strptime strftime tag rows.
Proof.
  induction rows as [|[now r] rest IH]; intros count; cbn; [reflexivity|].
  now rewrite IH.
Qed.

Lemma lines_from_limited tag limit rows : forall count,
  limit <> 0 ->
  CsvTool.lines_from datetime strptime strftime tag limit count rows =
  firstn (Z.to_nat (Z.max 1 (limit - count))) (CsvTool.all_lines datetime strptime strftime tag rows).
Proof.
  induction rows as [|[now r] rest IH]; intros count Hl.
  - cbn. now rewrite firstn_nil.
  - cbn [CsvTool.lines_from CsvTool.all_lines map fst snd].
    replace (negb (limit =? 0)) with true
      by (symmetry; apply negb_true_iff, Z.eqb_neq; exact Hl).
    cbn [andb].
    destruct (Z.leb_spec limit (count + 1)) as [H|H].
    + replace (Z.max 1 (limit - count)) with 1 by lia. reflexivity.
    + replace (Z.to_nat (Z.max 1 (limit - count)))
        with (S (Z.to_nat (Z.max 1 (limit - (count + 1))))) by lia.
      cbn [firstn]. now rewrite (IH (count + 1) Hl).
Qed.

(** X16: the lines for a limit are the first lines of the unlimited
    output: all of them for the limit 0, the first [limit] for a positive
    limit, and the first one alone for a negative limit. *)
Theorem csv_lines_are_a_prefix (rows : list (datetime * row)) (source_tag : string)
        (limit : Z) :
  CsvTool.csv_to_syslog_lines datetime strptime strftime rows source_tag limit =
  firstn (if limit =? 0 then List.length rows else Z.to_nat (Z.max 1 limit))
         (CsvTool.all_lines datetime strptime strftime source_tag rows).
Proof.
  unfold CsvTool.csv_to_syslog_lines.
  destruct (Z.eqb_spec limit 0) as [->|Hl].
  - rewrite lines_from_unlimited. unfold CsvTool.all_lines.
    rewrite <- (length_map (fun nr => CsvTool.row_line datetime strptime strftime source_tag (fst nr) (snd nr)) rows).
    now rewrite firstn_all.
  - rewrite (lines_from_limited _ _ _ 0 Hl). now rewrite Z.sub_0_r.
Qed.

End Library.

Lemma normalize_ts_width_witness :
  String.length (CsvTool.normalize_ts unit (fun _ _ => None)
                                      (fun _ _ => "Nov 03 23:00:00") tt
                                      (Some "19/02/2024"))
  = 15%nat.
Proof.
  exact (normalize_ts_has_syslog_width unit (fun _ _ => None)
                                       (fun _ _ => "Nov 03 23:00:00")
                                       (fun _ => eq_refl) tt (Some "19/02/2024")).
Defined.

(** With a parser that reads the two slash formats, the month-first one
    wins; with a parser that reads nothing, a syslog stamp passes through. *)
Lemma normalize_ts_first_format_witness :
  CsvTool.normalize_ts
    string
    (fun _ fmt => if String.eqb fmt "%m/%d/%Y %H:%M:%S" ||
                     String.eqb fmt "%d/%m/%Y %H:%M:%S"
                  then Some fmt else None)
    (fun dt _ => dt) "now" (Some "01/02/2024 10:00:00")
  = "%m/%d/%Y %H:%M:%S"
  /\ CsvTool.normalize_ts string (fun _ _ => None) (fun dt _ => dt) "now"
                          (Some " Feb 19 12:34:56 olt1 ")
     = "Feb 19 12:34:56".
Proof.
  split.
  - refine (proj1 (normalize_ts_first_format_wins
                     string
                     (fun _ fmt => if String.eqb fmt "%m/%d/%Y %H:%M:%S" ||
                                      String.eqb fmt "%d/%m/%Y %H:%M:%S"
                                   then Some fmt else None)
                     (fun dt _ => dt) "now" "01/02/2024 10:00:00" _)
                  ["%Y-%m-%d %H:%M:%S"; "%Y-%m-%dT%H:%M:%S"; "%Y-%m-%dT%H:%M:%SZ"]
                  "%m/%d/%Y %H:%M:%S" ["%d/%m/%Y %H:%M:%S"] "%m/%d/%Y %H:%M:%S"
                  eq_refl _ eq_refl).
    + discriminate.
    + repeat constructor.
  - refine (proj1 (proj2 (normalize_ts_first_format_wins
                            string (fun _ _ => None) (fun dt _ => dt) "now"
                            " Feb 19 12:34:56 olt1 " _)) _ _ eq_refl).
    + discriminate.
    + repeat constructor.
    + cbn. lia.
Defined.

Lemma send_all_sent lines : forall i sent,
  send_all AllSent i lines sent =
  (map datagram lines, Ok (sent + Z.of_nat (List.length lines))).
Proof.
  induction lines as [|l rest IH]; intros i sent.
  - cbn. now rewrite Z.add_0_r.
  - cbn [send_all]. unfold Prog.bind at 1. cbn [Prog.emit snd fst].
    rewrite IH. cbn [fst snd map List.length app]. f_equal. f_equal. lia.
Qed.

Lemma send_all_fails k e lines : forall i sent,
  (i <= k < i + List.length lines)%nat ->
  send_all (FailsAt k e) i lines sent =
  (map datagram (firstn (k - i) lines), Raise e).
Proof.
  induction lines as [|l rest IH]; intros i sent H.
  - cbn in H. lia.
  - cbn [send_all]. destruct (Nat.eqb_spec k i) as [->|Hk].
    + rewrite Nat.sub_diag. reflexivity.
    + unfold Prog.bind at 1. cbn [Prog.emit snd fst].
      rewrite (IH (S i) (sent + 1)) by (cbn in H; lia).
      replace (k - i)%nat with (S (k - S i)) by lia. reflexivity.
Qed.

Lemma send_all_late k e lines : forall i sent,
  (k < i)%nat ->
  send_all (FailsAt k e) i lines sent =
  (map datagram lines, Ok (sent + Z.of_nat (List.length lines))).
Proof.
  induction lines as [|l rest IH]; intros i sent H.
  - cbn. now rewrite Z.add_0_r.
  - cbn [send_all]. destruct (Nat.eqb_spec k i) as [->|Hk]; [lia|].
    unfold Prog.bind at 1. cbn [Prog.emit snd fst].
    rewrite IH by lia. cbn [fst snd map List.length app]. f_equal. f_equal. lia.
Qed.

(** X17: when no transmission fails, [send_udp] opens one socket, sends one
    datagram per line in the order of the lines, closes the socket and
    returns the number of lines. *)
Theorem send_udp_sends_every_line (lines : list string) :
  send_udp AllSent lines =
  ((SocketOpen :: map datagram lines ++ [SocketClose])%list,
   Ok (Z.of_nat (List.length lines))).
Proof.
  unfold send_udp. unfold Prog.bind at 1. cbn [Prog.emit snd fst].
  unfold Prog.bind at 1. rewrite send_all_sent. cbn. reflexivity.
Qed.

(** X18: when the [sendto] of the line of index [k] raises, exactly the [k]
    lines before it were sent, the exception leaves [send_udp], and the
    socket is never closed. *)
Theorem send_udp_leaves_socket_open_on_failure (k : nat) (e : exn)
        (lines : list string) :
  (k < List.length lines)%nat ->
  send_udp (FailsAt k e) lines =
  ((SocketOpen :: map datagram (firstn k lines))%list, Raise e)
  /\ Trace.closes (fst (send_udp (FailsAt k e) lines)) = 0%nat.
Proof.
  intros H.
  assert (E : send_udp (FailsAt k e) lines =
              ((SocketOpen :: map datagram (firstn k lines))%list, Raise e)).
  { unfold send_udp. unfold Prog.bind at 1. cbn [Prog.emit snd fst].
    unfold Prog.bind at 1. rewrite send_all_fails by lia.
    rewrite Nat.sub_0_r. reflexivity. }
  split; [exact E|]. rewrite E. cbn [fst].
  unfold Trace.closes. cbn [filter]. clear E.
  induction (firstn k lines) as [|l ls IH]; [reflexivity|exact IH].
Qed.

Lemma send_udp_failure_witness :
  send_udp (FailsAt 1 Scheduler.network_unreachable) ["a"; "b"; "c"] =
  ([SocketOpen; datagram "a"], Raise Scheduler.network_unreachable)
  /\ Trace.closes (fst (send_udp (FailsAt 1 Scheduler.network_unreachable)
                                 ["a"; "b"; "c"])) = 0%nat.
Proof.
  apply (send_udp_leaves_socket_open_on_failure 1 Scheduler.network_unreachable
                                                ["a"; "b"; "c"]).
  cbn. lia.
Defined.

End CsvLinesProps.
